(** * The release packager [build.py], embedded and verified

    [build.py] copies a fixed list of files and directories into a fresh
    staging directory, zips the staging directory into
    [PulsoidWidget-to-OSC-v<version>.zip] next to the project directory and
    removes the staging directory again.

    The script is a sequence of calls into [pathlib], [shutil], [tempfile]
    and [json].  The embedding keeps the script's own control flow as it is
    written and gives the primitives it calls a small executable semantics:

    - a path is the list of its components (an absolute POSIX path, read
      from the root), and [Path / str] parses its right operand the way
      [pathlib.PurePosixPath] does;
    - the file system is a tree of directories and regular files; a regular
      file carries its data and whether it may be opened for reading;
    - the script runs in a monad threading the file system and the console,
      in which a computation either returns or raises.

    Symbolic links, time stamps, directory permissions, the limits an
    operating system puts on names, the order in which an archive lists
    its members and the byte size of an archive are below this model.  A
    real run can therefore fail where the model's run goes through: on a
    version that makes a name the system refuses, on a file dated before
    1980 that [zipfile] will not store, on a directory that may not be
    written to.  The properties are framed so that this does no harm:
    what is said of an archive is said of runs that return, and by
    membership only; what is said of a failure is said of every outcome,
    or of a run that is known to have reached the statement in
    question. *)

From Stdlib Require Import List String Ascii Bool Arith Lia.
Import ListNotations.
Open Scope string_scope.
Open Scope list_scope.

Set Implicit Arguments.
Set Warnings "-register-all".

(** String concatenation, kept apart from list append. *)
Infix "+++" := String.append (right associativity, at level 60).

(* ================================================================== *)
(** ** Paths *)

Module Paths.

Definition path := list string.

Definition is_sep (c : ascii) : bool := Ascii.eqb c "/".

(** [s.split('/')]: the pieces between separators, empty ones included. *)
Fixpoint segments (s : string) : list string :=
  match s with
  | EmptyString => [EmptyString]
  | String c s' =>
      if is_sep c then EmptyString :: segments s'
      else match segments s' with
           | x :: xs => String c x :: xs
           | [] => [String c EmptyString]
           end
  end.

(** pathlib drops empty pieces and ["."] pieces; [".."] is kept. *)
Definition kept (x : string) : bool := negb (x =? "") && negb (x =? ".").

Definition parts (s : string) : path := filter kept (segments s).

(** [p / s].  An operand starting with a separator is absolute and
    replaces [p]; no operand of the script does. *)
Definition joinpath (p : path) (s : string) : path :=
  match s with
  | String c _ => if is_sep c then parts s else p ++ parts s
  | EmptyString => p
  end.

(** [p.parent]; the root is its own parent. *)
Definition parent (p : path) : path := removelast p.

(** [str(p) + suffix], read back as a path: the suffix lands on the last
    component.  [str] of the root is ["/"]. *)
Definition add_suffix (p : path) (suffix : string) : path :=
  match p with
  | [] => parts ("/" +++ suffix)
  | _ => removelast p ++ [last p "" +++ suffix]
  end.

(** [str(p)] for an absolute path. *)
Fixpoint render_rel (p : path) : string :=
  match p with
  | [] => ""
  | [c] => c
  | c :: p' => c +++ "/" +++ render_rel p'
  end.

Definition render (p : path) : string := "/" +++ render_rel p.

(** [is_prefix p q]: [q] is [p] or lies below [p]. *)
Fixpoint is_prefix (p q : path) : bool :=
  match p, q with
  | [], _ => true
  | a :: p', b :: q' => (a =? b) && is_prefix p' q'
  | _ :: _, [] => false
  end.

(** [diverge p q]: neither path lies on or below the other. *)
Fixpoint diverge (p q : path) : bool :=
  match p, q with
  | a :: p', b :: q' => if a =? b then diverge p' q' else true
  | _, _ => false
  end.

(** The string has no path separator in it. *)
Fixpoint no_sep (s : string) : bool :=
  match s with
  | EmptyString => true
  | String c s' => negb (is_sep c) && no_sep s'
  end.

End Paths.
Export Paths.

(* ================================================================== *)
(** ** The file system *)

Module FS.

(** What a regular file holds: plain text, or a zip archive, given by its
    members.  A member is its name inside the archive and, for a file
    member, the data stored; a directory member stores none. *)
Inductive fdata : Type :=
| Raw (text : string)
| Zip (members : list (path * option fdata)).

Definition member : Type := path * option fdata.

Inductive node : Type :=
| File (readable : bool) (data : fdata)
| Dir (entries : list (string * node)).

Definition listing := list (string * node).

(** Directory listings: the first binding of a name is the entry. *)
Fixpoint assoc A (k : string) (l : list (string * A)) : option A :=
  match l with
  | [] => None
  | (k', v) :: l' => if k' =? k then Some v else assoc k l'
  end.

Fixpoint set_entry A (k : string) (v : A) (l : list (string * A))
  : list (string * A) :=
  match l with
  | [] => [(k, v)]
  | (k', v') :: l' =>
      if k' =? k then (k, v) :: l' else (k', v') :: set_entry k v l'
  end.

Definition del_entry A (k : string) (l : list (string * A))
  : list (string * A) :=
  filter (fun kv => negb (fst kv =? k)) l.

(** The node a path names, if any. *)
Fixpoint lookup (p : path) (n : node) : option node :=
  match p with
  | [] => Some n
  | c :: p' =>
      match n with
      | Dir es =>
          match assoc c es with
          | Some m => lookup p' m
          | None => None
          end
      | File _ _ => None
      end
  end.

(** [Some true] for a directory, [Some false] for a regular file. *)
Definition kind (p : path) (n : node) : option bool :=
  match lookup p n with
  | Some (Dir _) => Some true
  | Some (File _ _) => Some false
  | None => None
  end.

(** Bind [p] to [m].  The directory that is to hold the entry has to be
    there; otherwise nothing changes (every caller checks first). *)
Fixpoint put (p : path) (m : node) (n : node) : node :=
  match p with
  | [] => m
  | c :: p' =>
      match n with
      | Dir es =>
          match assoc c es with
          | Some x => Dir (set_entry c (put p' m x) es)
          | None =>
              match p' with
              | [] => Dir (set_entry c m es)
              | _ :: _ => n
              end
          end
      | File _ _ => n
      end
  end.

(** Bind [p] to [m], creating the directories leading to it
    ([os.makedirs]); [None] when a regular file is in the way. *)
Fixpoint put_parents (p : path) (m : node) (n : node) : option node :=
  match p with
  | [] => Some m
  | c :: p' =>
      match n with
      | Dir es =>
          let below := match assoc c es with Some x => x | None => Dir [] end in
          match put_parents p' m below with
          | Some x' => Some (Dir (set_entry c x' es))
          | None => None
          end
      | File _ _ => None
      end
  end.

(** Remove [p] and everything below it.  The root stays. *)
Fixpoint rm (p : path) (n : node) : node :=
  match p with
  | [] => n
  | c :: p' =>
      match n with
      | Dir es =>
          match p' with
          | [] => Dir (del_entry c es)
          | _ :: _ =>
              match assoc c es with
              | Some x => Dir (set_entry c (rm p' x) es)
              | None => n
              end
          end
      | File _ _ => n
      end
  end.

(** Every regular file in the tree can be opened for reading. *)
Fixpoint all_readable (n : node) : bool :=
  match n with
  | File r _ => r
  | Dir es =>
      (fix go (es : listing) : bool :=
         match es with
         | [] => true
         | (_, m) :: es' => all_readable m && go es'
         end) es
  end.

(** What [shutil.copytree] manages to copy of a tree: a file that cannot
    be read is left out, everything else is copied as it is. *)
Fixpoint copied (n : node) : node :=
  match n with
  | File r d => File r d
  | Dir es =>
      Dir ((fix go (es : listing) : listing :=
              match es with
              | [] => []
              | (_, File false _) :: es' => go es'
              | (c, m) :: es' => (c, copied m) :: go es'
              end) es)
  end.

(** The members [zipfile] writes for the tree at archive name [arc], in
    walk order, and whether the walk got through.  It stops at the first
    file that cannot be read. *)
Fixpoint zip_write (arc : path) (n : node) : list member * bool :=
  match n with
  | File r d => if r then ([(arc, Some d)], true) else ([], false)
  | Dir es =>
      let '(ms, ok) :=
        (fix go (es : listing) : list member * bool :=
           match es with
           | [] => ([], true)
           | (c, m) :: es' =>
               let '(ms1, ok1) := zip_write (arc ++ [c]) m in
               if ok1 then let '(ms2, ok2) := go es' in (ms1 ++ ms2, ok2)
               else (ms1, false)
           end) es in
      ((arc, None) :: ms, ok)
  end.

End FS.
Export FS.

(* ================================================================== *)
(** ** Running a script: state and exceptions *)

Module Run.

Inductive exn : Type :=
| FileNotFoundError
| FileExistsError
| IsADirectoryError
| NotADirectoryError
| PermissionError
| ShutilError           (* shutil.Error *)
| AttributeError
| JSONDecodeError
| UnicodeDecodeError.

Inductive result (A : Type) : Type :=
| Ok (a : A)
| Raise (e : exn).
Arguments Ok {A} a.
Arguments Raise {A} e.

(** A line on standard output.  The size report prints a floating-point
    number of kilobytes; the line records the file that was measured. *)
Inductive line : Type :=
| Text (s : string)
| SizeKB (measured : node).

Record world : Type := World { fs : node; console : list line }.

Definition M (A : Type) : Type := world -> result A * world.

Definition ret A (a : A) : M A := fun w => (Ok a, w).

Definition bind A B (c : M A) (k : A -> M B) : M B :=
  fun w =>
    match c w with
    | (Ok a, w') => k a w'
    | (Raise e, w') => (Raise e, w')
    end.

Definition set_fs (n : node) (w : world) : world :=
  World n (console w).

Fixpoint for_each A (l : list A) (body : A -> M unit) : M unit :=
  match l with
  | [] => ret tt
  | x :: l' => bind (body x) (fun _ => for_each l' body)
  end.

End Run.
Export Run.

Declare Scope run_scope.
Delimit Scope run_scope with run.
Notation "x <- c1 ;; c2" := (bind c1 (fun x => c2))
  (at level 61, c1 at next level, right associativity) : run_scope.
Notation "c1 ;; c2" := (bind c1 (fun _ => c2))
  (at level 61, right associativity) : run_scope.
Open Scope run_scope.

(* ================================================================== *)
(** ** The primitives the script calls *)

Module Prim.

Definition print (s : string) : M unit :=
  fun w => (Ok tt, World (fs w) (console w ++ [Text s])).

Definition print_size (n : node) : M unit :=
  fun w => (Ok tt, World (fs w) (console w ++ [SizeKB n])).

(** [Path.exists] *)
Definition exists_ (p : path) : M bool :=
  fun w => (Ok (match lookup p (fs w) with Some _ => true | None => false end), w).

(** [Path.is_dir] *)
Definition is_dir (p : path) : M bool :=
  fun w => (Ok (match kind p (fs w) with Some true => true | _ => false end), w).

(** [Path.stat] *)
Definition stat (p : path) : M node :=
  fun w =>
    match lookup p (fs w) with
    | Some n => (Ok n, w)
    | None => (Raise FileNotFoundError, w)
    end.

(** [Path.mkdir], without [parents] and without [exist_ok]. *)
Definition mkdir (p : path) : M unit :=
  fun w =>
    match lookup p (fs w) with
    | Some _ => (Raise FileExistsError, w)
    | None =>
        match kind (parent p) (fs w) with
        | Some true => (Ok tt, set_fs (put p (Dir []) (fs w)) w)
        | Some false => (Raise NotADirectoryError, w)
        | None => (Raise FileNotFoundError, w)
        end
    end.

(** [Path.unlink] *)
Definition unlink (p : path) : M unit :=
  fun w =>
    match lookup p (fs w) with
    | Some (File _ _) => (Ok tt, set_fs (rm p (fs w)) w)
    | Some (Dir _) => (Raise IsADirectoryError, w)
    | None => (Raise FileNotFoundError, w)
    end.

(** [shutil.copy2 src dst]: the source is opened first; a destination
    that is a directory receives the file under the source's name; the
    copy keeps the permission bits. *)
Definition copy2 (src dst : path) : M path :=
  fun w =>
    match lookup src (fs w) with
    | None => (Raise FileNotFoundError, w)
    | Some (Dir _) => (Raise IsADirectoryError, w)
    | Some (File r d) =>
        if negb r then (Raise PermissionError, w)
        else
          let target :=
            match kind dst (fs w) with
            | Some true => dst ++ [last src ""]
            | _ => dst
            end in
          match kind target (fs w), kind (parent target) (fs w) with
          | Some true, _ => (Raise IsADirectoryError, w)
          | _, Some true => (Ok target, set_fs (put target (File r d) (fs w)) w)
          | _, _ => (Raise FileNotFoundError, w)
          end
    end.

(** [shutil.copytree src dst]: the destination must not exist and is
    made with [os.makedirs]; every entry that can be copied is copied, and
    the failures are raised together at the end. *)
Definition copytree (src dst : path) : M path :=
  fun w =>
    match lookup src (fs w) with
    | None => (Raise FileNotFoundError, w)
    | Some (File _ _) => (Raise NotADirectoryError, w)
    | Some (Dir es) =>
        match lookup dst (fs w) with
        | Some _ => (Raise FileExistsError, w)
        | None =>
            match put_parents dst (copied (Dir es)) (fs w) with
            | None => (Raise NotADirectoryError, w)
            | Some n' =>
                (if all_readable (Dir es) then Ok dst else Raise ShutilError,
                 set_fs n' w)
            end
        end
    end.

(** [shutil.make_archive base_name 'zip' root_dir base_dir]: the archive
    is the file [base_name + ".zip"]; its members are the tree at
    [root_dir/base_dir], named from [base_dir] on.  When a member cannot
    be read the archive keeps what was written until then. *)
Definition make_archive (base_name root_dir : path) (base_dir : string)
  : M path :=
  fun w =>
    let zip_filename := add_suffix base_name ".zip" in
    let archive_dir := parent base_name in
    let made :=
      match lookup archive_dir (fs w) with
      | Some _ => Some (fs w)
      | None => put_parents archive_dir (Dir []) (fs w)
      end in
    match made with
    | None => (Raise NotADirectoryError, w)
    | Some n1 =>
        match kind zip_filename n1, kind (parent zip_filename) n1 with
        | Some true, _ => (Raise IsADirectoryError, set_fs n1 w)
        | _, Some true =>
            let arc := parts base_dir in
            match lookup (joinpath root_dir base_dir) n1 with
            | None =>
                (Raise FileNotFoundError,
                 set_fs (put zip_filename (File true (Zip [])) n1) w)
            | Some tree =>
                let '(ms, ok) := zip_write arc tree in
                let ms' := match arc with [] => tl ms | _ :: _ => ms end in
                (if ok then Ok zip_filename else Raise PermissionError,
                 set_fs (put zip_filename (File true (Zip ms')) n1) w)
            end
        | _, _ => (Raise FileNotFoundError, set_fs n1 w)
        end
    end.

Section TemporaryDirectory.

(** The name [tempfile.mkdtemp] settles on. *)
Variable tmp_name : path.

Definition mkdtemp : M path :=
  fun w =>
    match lookup tmp_name (fs w) with
    | Some _ => (Raise FileExistsError, w)
    | None =>
        match kind (parent tmp_name) (fs w) with
        | Some true => (Ok tmp_name, set_fs (put tmp_name (Dir []) (fs w)) w)
        | _ => (Raise FileNotFoundError, w)
        end
    end.

(** [TemporaryDirectory.cleanup]: [shutil.rmtree] of the directory. *)
Definition cleanup (d : path) : world -> world :=
  fun w => set_fs (rm d (fs w)) w.

(** [with tempfile.TemporaryDirectory() as d: body]: the directory is
    removed when the block is left, by return or by exception. *)
Definition with_TemporaryDirectory A (body : path -> M A) : M A :=
  fun w =>
    match mkdtemp w with
    | (Raise e, w1) => (Raise e, w1)
    | (Ok d, w1) =>
        let '(r, w2) := body d w1 in (r, cleanup d w2)
    end.

End TemporaryDirectory.

End Prim.
Export Prim.

(* ================================================================== *)
(** ** [build.py] *)

Module Build.

(** A parsed JSON document, as [json.load] hands it back.  A number is
    kept by its literal. *)
Inductive pyval : Type :=
| PNone
| PBool (b : bool)
| PNumber (literal : string)
| PStr (s : string)
| PList (items : list pyval)
| PDict (items : list (string * pyval)).

(** Files/folders to include in the release *)
Definition INCLUDE : list string :=
  [ "code";
    "LICENSE";
    "README.md";
    "OSC_CONFIG_README.md";
    "osc_parameters.json";
    "package.json";
    "package-lock.json";
    "pulsoid_widget_osc.vrmanifest";
    "run.bat";
    "widget_id.txt.template" ].

Section Script.

(** [Path(__file__).parent], the directory holding the script. *)
Variable script_dir : path.

(** The directory name [tempfile.mkdtemp] settles on for this run. *)
Variable tmp_name : path.

(** [json.load] on the data of a file: decoding and parsing. *)
Variable json_load : fdata -> result pyval.

(** What an f-string prints for a value, [format(v, "")]. *)
Variable py_str : pyval -> string.

(** [get_version_from_package()] *)
Definition get_version_from_package : M pyval :=
  let package_path := joinpath script_dir "package.json" in
  fun w =>
    match lookup package_path (fs w) with
    | None => (Raise FileNotFoundError, w)
    | Some (Dir _) => (Raise IsADirectoryError, w)
    | Some (File readable content) =>
        if negb readable then (Raise PermissionError, w)
        else
          match json_load content with
          | Raise e => (Raise e, w)
          | Ok (PDict items) =>
              match assoc "version" items with
              | Some v => (Ok v, w)
              | None => (Ok (PStr "0.0.0"), w)
              end
          | Ok _ => (Raise AttributeError, w)
          end
    end.

Definition output_dir : path := parent script_dir.

Definition zip_name (version : string) : string :=
  "PulsoidWidget-to-OSC-v" +++ version.

Definition zip_path (version : string) : path :=
  joinpath output_dir (zip_name version +++ ".zip").

(** The body of the [for item in INCLUDE] loop. *)
Definition copy_item (temp_path : path) (item : string) : M unit :=
  let src := joinpath script_dir item in
  let dst := joinpath temp_path item in
  present <- exists_ src ;;
  if negb present then
    print ("[WARN] Missing: " +++ item)
  else
    d <- is_dir src ;;
    if d then
      copytree src dst ;;
      print ("[OK] Copied directory: " +++ item)
    else
      copy2 src dst ;;
      print ("[OK] Copied file: " +++ item).

(** The block under [with tempfile.TemporaryDirectory() as temp_dir], up
    to the archive call: the staging directory is made and filled, and
    what is found at the archive's path is deleted. *)
Definition stage (version : string) (temp_dir : path) : M unit :=
  let temp_path := joinpath temp_dir (zip_name version) in
  mkdir temp_path ;;
  for_each INCLUDE (copy_item temp_path) ;;
  there <- exists_ (zip_path version) ;;
  if there then unlink (zip_path version) else ret tt.

(** The whole block: the staging directory is prepared, then archived. *)
Definition staged_build (version : string) (temp_dir : path) : M unit :=
  stage version temp_dir ;;
  make_archive (joinpath output_dir (zip_name version))
               temp_dir (zip_name version) ;;
  ret tt.

(** [build_release(version)] *)
Definition build_release (version : string) : M path :=
  print ("[BUILD] Creating release v" +++ version) ;;
  print ("[BUILD] Output: " +++ render (zip_path version)) ;;
  with_TemporaryDirectory tmp_name (staged_build version) ;;
  print ("[BUILD] Done! Created: " +++ render (zip_path version)) ;;
  st <- stat (zip_path version) ;;
  print_size st ;;
  ret (zip_path version).

(** The version [main] settles on: [sys.argv[1]] when there is one, the
    package's version otherwise.  The script only ever formats the
    version into f-strings, so the text an f-string prints for it stands
    for the value. *)
Definition main_version (argv : list string) : M string :=
  if Nat.ltb 1 (List.length argv) then
    ret (nth 1 argv "")
  else
    version <- get_version_from_package ;;
    print ("[INFO] No version specified, using package.json: v"
             +++ py_str version) ;;
    ret (py_str version).

(** [main()] *)
Definition main (argv : list string) : M unit :=
  version <- main_version argv ;;
  build_release version ;;
  ret tt.

End Script.

End Build.
Export Build.

(* ================================================================== *)
(** ** The vocabulary of the properties *)

Unset Implicit Arguments.

Module Spec.

(** A name that is one path component: no separator, not empty, not a
    dot. *)
Definition simple_name (s : string) : bool := no_sep s && kept s.

(** What an archive stores for a node: the data of a file, nothing for a
    directory. *)
Definition payload (m : node) : option fdata :=
  match m with
  | File _ d => Some d
  | Dir _ => None
  end.

(** The walk over the entries of a directory, as [zip_write] does it. *)
Fixpoint zip_entries (arc : path) (es : listing) : list member * bool :=
  match es with
  | [] => ([], true)
  | (c, m) :: es' =>
      let '(ms1, ok1) := zip_write (arc ++ [c]) m in
      if ok1 then let '(ms2, ok2) := zip_entries arc es' in (ms1 ++ ms2, ok2)
      else (ms1, false)
  end.

(** Induction over trees, with the hypothesis on every entry of a
    directory. *)
Fixpoint node_tree_ind (P : node -> Prop)
  (HF : forall r d, P (File r d))
  (HD : forall es, Forall (fun kv => P (snd kv)) es -> P (Dir es))
  (n : node) : P n :=
  match n with
  | File r d => HF r d
  | Dir es =>
      HD es ((fix go (es : listing) : Forall (fun kv => P (snd kv)) es :=
                match es with
                | [] => Forall_nil _
                | (k, m) :: es' =>
                    @Forall_cons _ (fun kv => P (snd kv)) (k, m) es'
                      (@node_tree_ind P HF HD m) (go es')
                end) es)
  end.

(** [if zip_path.exists(): zip_path.unlink()] on a path that is not a
    directory. *)
Definition without (p : path) (n : node) : node :=
  match lookup p n with
  | Some _ => rm p n
  | None => n
  end.

Section Release.

Variables script_dir tmp_name : path.

(** What the loop leaves in the staging directory for [items]: every
    item that is there, as it is on disk, in the order of the list. *)
Definition staged_entries (n : node) (items : list string) : listing :=
  flat_map (fun i =>
              match lookup (script_dir ++ [i]) n with
              | Some x => [(i, x)]
              | None => []
              end) items.

(** What the loop prints for [items]. *)
Definition copy_report (n : node) (items : list string) : list line :=
  map (fun i =>
         Text (match lookup (script_dir ++ [i]) n with
               | None => "[WARN] Missing: " +++ i
               | Some (Dir _) => "[OK] Copied directory: " +++ i
               | Some (File _ _) => "[OK] Copied file: " +++ i
               end)) items.

(** The members of the archive a build makes from the disk [n]. *)
Definition release_members (version : string) (n : node) : list member :=
  fst (zip_write [zip_name version]
         (Dir (staged_entries n INCLUDE))).

Definition release_archive (version : string) (n : node) : node :=
  File true (Zip (release_members version n)).

(** Everything a successful build prints. *)
Definition build_report (version : string) (n : node) : list line :=
  [ Text ("[BUILD] Creating release v" +++ version);
    Text ("[BUILD] Output: " +++ render (zip_path script_dir version)) ]
  ++ copy_report n INCLUDE
  ++ [ Text ("[BUILD] Done! Created: " +++ render (zip_path script_dir version));
       SizeKB (release_archive version n) ].

Definition not_a_dir (p : path) (n : node) : bool :=
  match kind p n with Some true => false | _ => true end.

Definition readable_item (n : node) (i : string) : bool :=
  match lookup (script_dir ++ [i]) n with
  | Some x => all_readable x
  | None => true
  end.

(** Where a run takes place: the script's directory is there, and the
    name [tempfile] settles on lies apart from the listed sources and
    from the archive's path. *)
Record placed (version : string) (n : node) : Prop := Placed {
  placed_script_dir : kind script_dir n = Some true;
  placed_tmp_sources :
    forallb (fun i => diverge tmp_name (script_dir ++ [i])) INCLUDE = true;
  placed_tmp_output : diverge tmp_name (zip_path script_dir version) = true
}.

(** What the primitives above ask of a disk for a build of [version] to
    return: the version is a file name; the script's directory is there;
    the temporary directory is a new name in an existing directory, away
    from the listed sources and from the archive; no directory sits
    where the archive goes; the listed sources can be read.  A real disk
    has more ways to refuse (see the head of the file), so the
    properties below are stated of runs that return and use [ready] only
    as what such a run tells about the disk it started from. *)
Record ready (version : string) (n : node) : Prop := Ready {
  ready_version : no_sep version = true;
  ready_script_dir : kind script_dir n = Some true;
  ready_tmp_fresh : lookup tmp_name n = None;
  ready_tmp_parent : kind (parent tmp_name) n = Some true;
  ready_tmp_sources :
    forallb (fun i => diverge tmp_name (script_dir ++ [i])) INCLUDE = true;
  ready_tmp_output : diverge tmp_name (zip_path script_dir version) = true;
  ready_output : not_a_dir (zip_path script_dir version) n = true;
  ready_readable : forallb (readable_item n) INCLUDE = true
}.

End Release.

End Spec.
Export Spec.

(* ================================================================== *)
(** ** Well-formed directories *)

Module Wellformed.


End Wellformed.
Export Wellformed.

(* ================================================================== *)
(** ** A project tree to run the script on *)

Module Sample.

Definition script_dir : path := ["home"; "dev"; "widget"].

Definition tmp_name : path := ["tmp"; "tmpk3x9"].

Definition dq : string := String "034"%char EmptyString.

(** [{"version": "2.0.0"}] *)
Definition package_text : string :=
  "{" +++ dq +++ "version" +++ dq +++ ": " +++ dq +++ "2.0.0" +++ dq +++ "}".

(** [{"name": "widget"}] *)
Definition unversioned_text : string :=
  "{" +++ dq +++ "name" +++ dq +++ ": " +++ dq +++ "widget" +++ dq +++ "}".

(** A decoder that knows the two documents above and rejects the rest. *)
Definition json_load (d : fdata) : result pyval :=
  match d with
  | Raw s =>
      if s =? package_text then Ok (PDict [("version", PStr "2.0.0")])
      else if s =? unversioned_text then Ok (PDict [("name", PStr "widget")])
      else Raise JSONDecodeError
  | Zip _ => Raise UnicodeDecodeError
  end.

Definition py_str (v : pyval) : string :=
  match v with
  | PStr s => s
  | PNone => "None"
  | PBool true => "True"
  | PBool false => "False"
  | PNumber l => l
  | PList _ => "[...]"
  | PDict _ => "{...}"
  end.

Definition code_tree : node :=
  Dir [ ("main.js", File true (Raw "require('./lib/osc')"));
        ("lib", Dir [ ("osc.js", File true (Raw "module.exports = {}")) ]) ].

(** The project directory with the given [package.json] text and the
    given flag on [LICENSE]; [run.bat] and some other listed files are
    not there. *)
Definition project (package : string) (license_readable : bool) : node :=
  Dir [ ("build.py", File true (Raw "#!/usr/bin/env python3"));
        ("code", code_tree);
        ("LICENSE", File license_readable (Raw "MIT"));
        ("README.md", File true (Raw "# Pulsoid widget to OSC"));
        ("package.json", File true (Raw package));
        ("node_modules", Dir [ ("ws", Dir [ ("index.js", File true (Raw "")) ]) ]) ].

(** The whole disk: the project under [/home/dev], whatever else sits in
    [/home/dev], and an empty [/tmp]. *)
Definition disk (proj : node) (beside : listing) : node :=
  Dir [ ("home", Dir [ ("dev", Dir (("widget", proj) :: beside)) ]);
        ("tmp", Dir []) ].

Definition fresh_disk : node := disk (project package_text true) [].

Definition old_archive : node :=
  File true (Zip [ (["PulsoidWidget-to-OSC-v1.1.1"], None);
                   (["PulsoidWidget-to-OSC-v1.1.1"; "stale.txt"], Some (Raw "old")) ]).


(** The same, with a [LICENSE] that cannot be read. *)
Definition locked_disk : node :=
  disk (project package_text false)
       [ ("PulsoidWidget-to-OSC-v1.1.1.zip", old_archive) ].

(** A disk without [package.json]. *)
Definition bare_disk : node :=
  disk (Dir [ ("build.py", File true (Raw "#!/usr/bin/env python3"));
              ("README.md", File true (Raw "# Pulsoid widget to OSC")) ]) [].

(** A disk whose [package.json] is cut short. *)
Definition broken_disk : node :=
  disk (project "{" true) [].

(** A disk whose [package.json] names no version. *)
Definition unversioned_disk : node :=
  disk (project unversioned_text true) [].

Definition boot (n : node) : world := World n [].

Definition build_release := Build.build_release script_dir tmp_name.
Definition main := Build.main script_dir tmp_name json_load py_str.
Definition main_version := Build.main_version script_dir json_load py_str.

End Sample.

(* ================================================================== *)
(** * Facts about paths *)

Module PathFacts.

Lemma no_sep_app (a b : string) :
  no_sep (a +++ b) = no_sep a && no_sep b.
Proof.
  induction a as [|c a IH]; simpl; [reflexivity|].
  rewrite IH. now rewrite andb_assoc.
Qed.

Lemma segments_no_sep (s : string) :
  no_sep s = true -> segments s = [s].
Proof.
  induction s as [|c s IH]; simpl; [reflexivity|].
  intros H. apply andb_true_iff in H as [Hc Hs].
  apply negb_true_iff in Hc. rewrite Hc, (IH Hs). reflexivity.
Qed.

Lemma parts_simple (s : string) :
  simple_name s = true -> parts s = [s].
Proof.
  unfold simple_name, parts. intros H.
  apply andb_true_iff in H as [Hs Hk].
  rewrite (segments_no_sep _ Hs). simpl. now rewrite Hk.
Qed.

Lemma joinpath_simple (p : path) (s : string) :
  simple_name s = true -> joinpath p s = p ++ [s].
Proof.
  intros H. unfold joinpath. destruct s as [|c s].
  - discriminate H.
  - rewrite (parts_simple _ H).
    unfold simple_name in H. simpl in H.
    destruct (is_sep c); [discriminate H | reflexivity].
Qed.

Lemma add_suffix_last (p : path) (c suffix : string) :
  add_suffix (p ++ [c]) suffix = p ++ [c +++ suffix].
Proof.
  unfold add_suffix. rewrite removelast_last, last_last.
  destruct p; reflexivity.
Qed.

Lemma parent_last (p : path) (c : string) : parent (p ++ [c]) = p.
Proof. apply removelast_last. Qed.

Lemma is_prefix_refl (p : path) : is_prefix p p = true.
Proof.
  induction p as [|a p IH]; simpl; [reflexivity|].
  now rewrite String.eqb_refl.
Qed.

Lemma is_prefix_app (p q : path) : is_prefix p (p ++ q) = true.
Proof.
  induction p as [|a p IH]; simpl; [reflexivity|].
  now rewrite String.eqb_refl.
Qed.

Lemma is_prefix_trans (p q r : path) :
  is_prefix p q = true -> is_prefix q r = true -> is_prefix p r = true.
Proof.
  revert q r. induction p as [|a p IH]; intros q r Hpq Hqr; [reflexivity|].
  destruct q as [|b q]; [discriminate|]. destruct r as [|c r]; [discriminate|].
  simpl in *. apply andb_true_iff in Hpq as [Hab Hpq].
  apply andb_true_iff in Hqr as [Hbc Hqr].
  apply String.eqb_eq in Hab. apply String.eqb_eq in Hbc. subst.
  rewrite String.eqb_refl. simpl. eauto.
Qed.

Lemma is_prefix_inv (p q : path) :
  is_prefix p q = true -> exists r, q = p ++ r.
Proof.
  revert q. induction p as [|a p IH]; intros q H.
  - now exists q.
  - destruct q as [|b q]; [discriminate|]. simpl in H.
    apply andb_true_iff in H as [Hab H]. apply String.eqb_eq in Hab. subst.
    destruct (IH _ H) as [r ->]. now exists r.
Qed.

Lemma diverge_sym (p q : path) : diverge p q = diverge q p.
Proof.
  revert q. induction p as [|a p IH]; intros [|b q]; simpl; try reflexivity.
  rewrite (String.eqb_sym b a). destruct (a =? b); [apply IH | reflexivity].
Qed.

Lemma diverge_app_l (p q r : path) :
  diverge p q = true -> diverge (p ++ r) q = true.
Proof.
  revert q. induction p as [|a p IH]; intros [|b q] H; simpl in *;
    try discriminate.
  destruct (a =? b); [now apply IH | reflexivity].
Qed.

Lemma diverge_app_r (p q r : path) :
  diverge p q = true -> diverge p (q ++ r) = true.
Proof.
  intros H. rewrite diverge_sym. apply diverge_app_l. now rewrite diverge_sym.
Qed.

Lemma diverge_not_prefix (p q : path) :
  diverge p q = true -> is_prefix p q = false.
Proof.
  revert q. induction p as [|a p IH]; intros [|b q] H; simpl in *;
    try discriminate; try reflexivity.
  destruct (a =? b); simpl; [now apply IH | reflexivity].
Qed.

(** A path that leaves [p ++ r] already leaves [p], unless it lies
    below [p]. *)
Lemma diverge_shorten (p q r : path) :
  diverge p (q ++ r) = true -> is_prefix p q = false.
Proof.
  revert q. induction p as [|a p IH]; intros q H; [discriminate H|].
  destruct q as [|b q]; [reflexivity|]. simpl in *.
  destruct (a =? b); simpl; [now apply IH | reflexivity].
Qed.

Lemma is_prefix_longer (p : path) (c : string) :
  is_prefix (p ++ [c]) p = false.
Proof.
  induction p as [|a p IH]; simpl; [reflexivity|].
  now rewrite String.eqb_refl.
Qed.

Lemma not_prefix_app_l (p q r : path) :
  is_prefix p q = false -> is_prefix (p ++ r) q = false.
Proof.
  revert q. induction p as [|a p IH]; intros q H; [discriminate H|].
  destruct q as [|b q]; [reflexivity|]. simpl in *.
  destruct (a =? b); simpl in *; [now apply IH | reflexivity].
Qed.

End PathFacts.
Import PathFacts.

(* ================================================================== *)
(** * Facts about the file system *)

Module FSFacts.

Section Listings.
Variable A : Type.
Implicit Types (l : list (string * A)) (k : string) (v : A).

Lemma assoc_set_same l k v : assoc k (set_entry k v l) = Some v.
Proof.
  induction l as [|[k' v'] l IH]; simpl.
  - now rewrite String.eqb_refl.
  - destruct (k' =? k) eqn:E; simpl.
    + now rewrite String.eqb_refl.
    + now rewrite E.
Qed.

Lemma assoc_set_other l k k' v :
  (k =? k') = false -> assoc k' (set_entry k v l) = assoc k' l.
Proof.
  intros Hk. induction l as [|[k0 v0] l IH]; simpl.
  - now rewrite Hk.
  - destruct (k0 =? k) eqn:E; simpl.
    + apply String.eqb_eq in E. subst k0. now rewrite Hk.
    + now rewrite IH.
Qed.

Lemma assoc_del_same l k : assoc k (del_entry k l) = None.
Proof.
  induction l as [|[k' v'] l IH]; simpl; [reflexivity|].
  destruct (k' =? k) eqn:E; simpl; [assumption | now rewrite E].
Qed.

Lemma assoc_del_other l k k' :
  (k =? k') = false -> assoc k' (del_entry k l) = assoc k' l.
Proof.
  intros Hk. induction l as [|[k0 v0] l IH]; simpl; [reflexivity|].
  destruct (k0 =? k) eqn:E; simpl.
  - apply String.eqb_eq in E. subst k0. now rewrite Hk.
  - now rewrite IH.
Qed.

Lemma set_entry_fresh l k v :
  assoc k l = None -> set_entry k v l = l ++ [(k, v)].
Proof.
  induction l as [|[k' v'] l IH]; simpl; [reflexivity|].
  destruct (k' =? k); [discriminate | intros H; now rewrite IH].
Qed.

Lemma assoc_app_fresh l k k' v :
  assoc k l = None -> (k' =? k) = false -> assoc k (l ++ [(k', v)]) = None.
Proof.
  intros Hl Hk. induction l as [|[k0 v0] l IH]; simpl in *.
  - now rewrite Hk.
  - destruct (k0 =? k); [discriminate | now apply IH].
Qed.



End Listings.

Lemma kind_cons (c : string) (q : path) (es : listing) :
  kind (c :: q) (Dir es) =
  match assoc c es with Some x => kind q x | None => None end.
Proof. unfold kind. simpl. now destruct (assoc c es). Qed.

Lemma kind_cons_file (c : string) (q : path) r d :
  kind (c :: q) (File r d) = None.
Proof. reflexivity. Qed.

Lemma kind_lookup_dir (p : path) (n : node) :
  kind p n = Some true -> exists es, lookup p n = Some (Dir es).
Proof.
  unfold kind. destruct (lookup p n) as [[r d|es]|]; try discriminate.
  intros _. now exists es.
Qed.

Lemma kind_None (p : path) (n : node) :
  kind p n = None <-> lookup p n = None.
Proof.
  unfold kind. destruct (lookup p n) as [[r d|es]|]; split; congruence.
Qed.

Lemma lookup_app (p q : path) (n : node) :
  lookup (p ++ q) n =
  match lookup p n with Some m => lookup q m | None => None end.
Proof.
  revert n. induction p as [|c p IH]; intros n; simpl; [reflexivity|].
  destruct n as [r d|es]; [reflexivity|].
  destruct (assoc c es); [apply IH | reflexivity].
Qed.

Lemma lookup_below_None (p q : path) (n : node) :
  lookup p n = None -> lookup (p ++ q) n = None.
Proof. intros H. now rewrite lookup_app, H. Qed.

Lemma kind_parent (p : path) (n : node) :
  kind p n = Some true -> kind (parent p) n = Some true.
Proof.
  revert n. induction p as [|c p IH]; intros n H; [exact H|].
  destruct n as [r d|es]; [discriminate H|].
  destruct p as [|c' p']; [reflexivity|].
  rewrite kind_cons in H.
  change (parent (c :: c' :: p')) with (c :: parent (c' :: p')).
  rewrite kind_cons. destruct (assoc c es); [now apply IH | discriminate].
Qed.

(** *** [put] *)

Lemma lookup_put_below (p q : path) (m n : node) :
  kind (parent p) n = Some true ->
  lookup (p ++ q) (put p m n) = lookup q m.
Proof.
  revert n. induction p as [|c p IH]; intros n H; [reflexivity|].
  destruct n as [r d|es].
  - destruct p; discriminate H.
  - destruct p as [|c' p'].
    + simpl. destruct (assoc c es); simpl; now rewrite assoc_set_same.
    + change (parent (c :: c' :: p')) with (c :: parent (c' :: p')) in H.
      rewrite kind_cons in H.
      change (put (c :: c' :: p') m (Dir es)) with
        (match assoc c es with
         | Some x => Dir (set_entry c (put (c' :: p') m x) es)
         | None => Dir es
         end).
      destruct (assoc c es) as [x|]; [|discriminate].
      change (lookup ((c :: c' :: p') ++ q) (Dir (set_entry c (put (c' :: p') m x) es)))
        with (match assoc c (set_entry c (put (c' :: p') m x) es) with
              | Some y => lookup ((c' :: p') ++ q) y
              | None => None
              end).
      rewrite assoc_set_same. now apply IH.
Qed.

Lemma lookup_put_same (p : path) (m n : node) :
  kind (parent p) n = Some true -> lookup p (put p m n) = Some m.
Proof.
  intros H. rewrite <- (app_nil_r p) at 1. now rewrite lookup_put_below.
Qed.

Lemma lookup_put_diverge (p q : path) (m n : node) :
  diverge p q = true -> lookup q (put p m n) = lookup q n.
Proof.
  revert q n. induction p as [|a p IH]; intros q n H; [discriminate H|].
  destruct q as [|b q]; [discriminate H|].
  destruct n as [r d|es]; [reflexivity|].
  simpl in H. simpl put.
  destruct (a =? b) eqn:E.
  - apply String.eqb_eq in E. subst b.
    destruct (assoc a es) as [x|] eqn:Ea.
    + simpl. rewrite assoc_set_same, Ea. now apply IH.
    + destruct p; [discriminate H | reflexivity].
  - destruct (assoc a es) as [x|] eqn:Ea.
    + simpl. now rewrite assoc_set_other.
    + destruct p; [|reflexivity]. simpl. now rewrite assoc_set_other.
Qed.

Lemma kind_put_outside (p q : path) (m n : node) :
  is_prefix p q = false -> kind q (put p m n) = kind q n.
Proof.
  revert q n. induction p as [|a p IH]; intros q n H; [discriminate H|].
  destruct n as [r d|es]; [reflexivity|].
  destruct q as [|b q].
  - simpl put. destruct (assoc a es); [reflexivity|]. now destruct p.
  - simpl in H. simpl put.
    destruct (a =? b) eqn:E; simpl in H.
    + apply String.eqb_eq in E. subst b.
      destruct (assoc a es) as [x|] eqn:Ea.
      * rewrite !kind_cons, assoc_set_same, Ea. now apply IH.
      * destruct p; [discriminate H | reflexivity].
    + destruct (assoc a es) as [x|] eqn:Ea.
      * rewrite !kind_cons. now rewrite assoc_set_other.
      * destruct p; [|reflexivity]. rewrite !kind_cons.
        now rewrite assoc_set_other.
Qed.

(** A new last component lands in the listing of its directory. *)
Lemma lookup_put_entry (p : path) (c : string) (m n : node) (es : listing) :
  lookup p n = Some (Dir es) ->
  lookup p (put (p ++ [c]) m n) = Some (Dir (set_entry c m es)).
Proof.
  revert n. induction p as [|a p IH]; intros n H.
  - simpl in H. injection H as ->. simpl. now destruct (assoc c es).
  - destruct n as [r d|es0]; [discriminate H|].
    simpl in H. simpl app.
    change (put (a :: p ++ [c]) m (Dir es0)) with
      (match assoc a es0 with
       | Some x => Dir (set_entry a (put (p ++ [c]) m x) es0)
       | None => match p ++ [c] with [] => Dir (set_entry a m es0) | _ :: _ => Dir es0 end
       end).
    destruct (assoc a es0) as [x|]; [|discriminate].
    simpl. rewrite assoc_set_same. now apply IH.
Qed.

Lemma put_parents_put (p : path) (m n : node) :
  kind (parent p) n = Some true -> put_parents p m n = Some (put p m n).
Proof.
  revert n. induction p as [|c p IH]; intros n H; [reflexivity|].
  destruct n as [r d|es].
  - destruct p; discriminate H.
  - destruct p as [|c' p'].
    + simpl. now destruct (assoc c es).
    + change (parent (c :: c' :: p')) with (c :: parent (c' :: p')) in H.
      rewrite kind_cons in H.
      change (put_parents (c :: c' :: p') m (Dir es)) with
        (match put_parents (c' :: p') m
                 (match assoc c es with Some x => x | None => Dir [] end) with
         | Some x' => Some (Dir (set_entry c x' es))
         | None => None
         end).
      change (put (c :: c' :: p') m (Dir es)) with
        (match assoc c es with
         | Some x => Dir (set_entry c (put (c' :: p') m x) es)
         | None => Dir es
         end).
      destruct (assoc c es) as [x|]; [|discriminate].
      now rewrite (IH _ H).
Qed.

(** *** [rm] *)

Lemma lookup_rm_below (p q : path) (n : node) :
  p <> [] -> lookup (p ++ q) (rm p n) = None.
Proof.
  revert n. induction p as [|c p IH]; intros n Hp; [congruence|].
  destruct n as [r d|es]; [reflexivity|].
  destruct p as [|c' p'].
  - simpl. now rewrite assoc_del_same.
  - change (rm (c :: c' :: p') (Dir es)) with
      (match assoc c es with
       | Some x => Dir (set_entry c (rm (c' :: p') x) es)
       | None => Dir es
       end).
    destruct (assoc c es) as [x|] eqn:Ea.
    + change (lookup ((c :: c' :: p') ++ q) (Dir (set_entry c (rm (c' :: p') x) es)))
        with (match assoc c (set_entry c (rm (c' :: p') x) es) with
              | Some y => lookup ((c' :: p') ++ q) y
              | None => None
              end).
      rewrite assoc_set_same. apply IH. discriminate.
    + simpl. now rewrite Ea.
Qed.

Lemma lookup_rm_same (p : path) (n : node) :
  p <> [] -> lookup p (rm p n) = None.
Proof.
  intros H. rewrite <- (app_nil_r p) at 1. now apply lookup_rm_below.
Qed.

Lemma lookup_rm_diverge (p q : path) (n : node) :
  diverge p q = true -> lookup q (rm p n) = lookup q n.
Proof.
  revert q n. induction p as [|a p IH]; intros q n H; [discriminate H|].
  destruct q as [|b q]; [discriminate H|].
  destruct n as [r d|es]; [reflexivity|].
  simpl in H.
  destruct p as [|c' p'].
  - destruct (a =? b) eqn:E; [discriminate H|].
    simpl. now rewrite assoc_del_other.
  - change (rm (a :: c' :: p') (Dir es)) with
      (match assoc a es with
       | Some x => Dir (set_entry a (rm (c' :: p') x) es)
       | None => Dir es
       end).
    destruct (assoc a es) as [x|] eqn:Ea; [|reflexivity].
    simpl lookup.
    destruct (a =? b) eqn:E.
    + apply String.eqb_eq in E. subst b.
      rewrite assoc_set_same, Ea. now apply IH.
    + now rewrite assoc_set_other.
Qed.

Lemma kind_rm_outside (p q : path) (n : node) :
  is_prefix p q = false -> kind q (rm p n) = kind q n.
Proof.
  revert q n. induction p as [|a p IH]; intros q n H; [discriminate H|].
  destruct n as [r d|es]; [reflexivity|].
  destruct p as [|c' p'].
  - destruct q as [|b q]; [reflexivity|].
    simpl in H. rewrite andb_true_r in H.
    simpl rm. rewrite !kind_cons. now rewrite assoc_del_other.
  - change (rm (a :: c' :: p') (Dir es)) with
      (match assoc a es with
       | Some x => Dir (set_entry a (rm (c' :: p') x) es)
       | None => Dir es
       end).
    destruct (assoc a es) as [x|] eqn:Ea; [|reflexivity].
    destruct q as [|b q]; [reflexivity|].
    simpl in H. rewrite !kind_cons.
    destruct (a =? b) eqn:E; simpl in H.
    + apply String.eqb_eq in E. subst b.
      rewrite assoc_set_same, Ea. now apply IH.
    + now rewrite assoc_set_other.
Qed.

End FSFacts.
Import FSFacts.

(* ================================================================== *)
(** * Facts about copying and archiving *)

Module TreeFacts.

Lemma zip_write_dir (arc : path) (es : listing) :
  zip_write arc (Dir es) =
  ((arc, None) :: fst (zip_entries arc es), snd (zip_entries arc es)).
Proof.
  induction es as [|[c m] es IH]; [reflexivity|].
  simpl in *.
  destruct (zip_write (arc ++ [c]) m) as [ms1 [|]]; [|reflexivity].
  destruct (zip_entries arc es) as [ms2 ok2]. simpl in *.
  match type of IH with
  | context [match ?F with pair _ _ => _ end] => destruct F as [a b]
  end.
  now injection IH as -> ->.
Qed.

Lemma all_readable_cons (c : string) (m : node) (es : listing) :
  all_readable (Dir ((c, m) :: es)) = all_readable m && all_readable (Dir es).
Proof. reflexivity. Qed.

Lemma copied_readable (n : node) : all_readable n = true -> copied n = n.
Proof.
  induction n as [r d|es IH] using node_tree_ind; [reflexivity|].
  induction IH as [|[c m] es Hm _ IHes]; [reflexivity|].
  rewrite all_readable_cons. intros H. apply andb_true_iff in H as [H1 H2].
  specialize (IHes H2). simpl in Hm. specialize (Hm H1).
  simpl in *. injection IHes as IHes. rewrite IHes, Hm.
  destruct m as [[|] d|es']; [reflexivity | discriminate H1 | reflexivity].
Qed.

Lemma zip_write_complete (n : node) (arc : path) :
  all_readable n = true -> snd (zip_write arc n) = true.
Proof.
  revert arc. induction n as [r d|es IH] using node_tree_ind; intros arc H.
  - simpl in *. now rewrite H.
  - rewrite zip_write_dir. simpl.
    induction IH as [|[c m] es Hm _ IHes]; [reflexivity|].
    rewrite all_readable_cons in H. apply andb_true_iff in H as [H1 H2].
    simpl in *. specialize (Hm (arc ++ [c]) H1).
    destruct (zip_write (arc ++ [c]) m) as [ms1 ok1]. simpl in Hm. subst ok1.
    specialize (IHes H2). destruct (zip_entries arc es) as [ms2 ok2].
    exact IHes.
Qed.

(** A member of a directory's archive is the directory itself or lies
    under one of its entries. *)
Lemma zip_entries_names (arc : path) (es : listing) (a : path) x :
  (forall c m arc', In (c, m) es -> forall a' x',
      In (a', x') (fst (zip_write arc' m)) -> is_prefix arc' a' = true) ->
  In (a, x) (fst (zip_entries arc es)) ->
  exists c m, In (c, m) es /\ is_prefix (arc ++ [c]) a = true.
Proof.
  induction es as [|[c m] es IH]; intros Hsub Hin; [destruct Hin|].
  simpl in Hin.
  destruct (zip_write (arc ++ [c]) m) as [ms1 ok1] eqn:E1.
  assert (Hhere : In (a, x) ms1 ->
                  exists c' m', In (c', m') ((c, m) :: es) /\
                                is_prefix (arc ++ [c']) a = true).
  { intros Hin1. exists c, m. split; [now left|].
    apply (Hsub c m (arc ++ [c]) (or_introl eq_refl) a x).
    now rewrite E1. }
  destruct ok1; [|now apply Hhere].
  destruct (zip_entries arc es) as [ms2 ok2] eqn:E2. simpl in Hin.
  apply in_app_or in Hin as [Hin|Hin]; [now apply Hhere|].
  destruct IH as (c' & m' & Hc' & Hp).
  - intros c' m' arc' Hc'. apply (Hsub c' m' arc'). now right.
  - exact Hin.
  - exists c', m'. split; [now right | exact Hp].
Qed.

Lemma zip_write_names (n : node) (arc a : path) x :
  In (a, x) (fst (zip_write arc n)) -> is_prefix arc a = true.
Proof.
  revert arc a x. induction n as [r d|es IH] using node_tree_ind;
    intros arc a x Hin.
  - simpl in Hin. destruct r; [|destruct Hin].
    destruct Hin as [[= <- _]|[]]. apply is_prefix_refl.
  - rewrite zip_write_dir in Hin. simpl in Hin.
    destruct Hin as [[= <- _]|Hin]; [apply is_prefix_refl|].
    destruct (zip_entries_names arc es a x) as (c & m & Hc & Hp);
      [|exact Hin|].
    + intros c m arc' Hc a' x'. rewrite Forall_forall in IH.
      apply (IH (c, m) Hc).
    + apply is_prefix_trans with (q := arc ++ [c]);
        [apply is_prefix_app | exact Hp].
Qed.

Lemma zip_write_dir_names (arc : path) (es : listing) (a : path) x :
  In (a, x) (fst (zip_write arc (Dir es))) ->
  a = arc \/ exists c m, In (c, m) es /\ is_prefix (arc ++ [c]) a = true.
Proof.
  rewrite zip_write_dir. simpl. intros [[= <- _]|Hin]; [now left|].
  right. apply (zip_entries_names arc es a x); [|exact Hin].
  intros c m arc' _ a' x'. apply zip_write_names.
Qed.

End TreeFacts.
Import TreeFacts.

(* ================================================================== *)
(** * The copy loop *)

Module LoopFacts.

Section Loop.

Variable script_dir : path.

Lemma staged_entries_ext (n n' : node) (items : list string) :
  (forall i, In i items ->
             lookup (script_dir ++ [i]) n' = lookup (script_dir ++ [i]) n) ->
  staged_entries script_dir n' items = staged_entries script_dir n items.
Proof.
  induction items as [|i items IH]; intros H; [reflexivity|].
  simpl. rewrite (H i (or_introl eq_refl)). f_equal.
  apply IH. intros j Hj. apply H. now right.
Qed.

Lemma copy_report_ext (n n' : node) (items : list string) :
  (forall i, In i items ->
             lookup (script_dir ++ [i]) n' = lookup (script_dir ++ [i]) n) ->
  copy_report script_dir n' items = copy_report script_dir n items.
Proof.
  induction items as [|i items IH]; intros H; [reflexivity|].
  simpl. rewrite (H i (or_introl eq_refl)). f_equal.
  apply IH. intros j Hj. apply H. now right.
Qed.

Lemma staged_entries_In (n : node) (items : list string) c m :
  In (c, m) (staged_entries script_dir n items) <->
  In c items /\ lookup (script_dir ++ [c]) n = Some m.
Proof.
  unfold staged_entries. rewrite in_flat_map. split.
  - intros (i & Hi & Hin).
    destruct (lookup (script_dir ++ [i]) n) as [x|] eqn:E; [|destruct Hin].
    destruct Hin as [[= -> ->]|[]]. now split.
  - intros [Hi E]. exists c. split; [exact Hi|]. rewrite E. now left.
Qed.

(** One item lands in the staging directory. *)
Lemma stage_put (tp : path) (i : string) (x n : node) (staged : listing) :
  lookup tp n = Some (Dir staged) ->
  assoc i staged = None ->
  let n1 := put (tp ++ [i]) x n in
  lookup tp n1 = Some (Dir (staged ++ [(i, x)])) /\
  (forall q, diverge tp q = true -> lookup q n1 = lookup q n) /\
  (forall q, is_prefix tp q = false -> kind q n1 = kind q n).
Proof.
  intros Htp Hi n1. subst n1. split; [|split].
  - rewrite (lookup_put_entry tp i x n staged Htp). now rewrite set_entry_fresh.
  - intros q Hq. apply lookup_put_diverge. now apply diverge_app_l.
  - intros q Hq. apply kind_put_outside. now apply not_prefix_app_l.
Qed.

Lemma staging_slot_free (tp : path) (i : string) (n : node) (staged : listing) :
  lookup tp n = Some (Dir staged) ->
  assoc i staged = None ->
  lookup (tp ++ [i]) n = None /\ kind (parent (tp ++ [i])) n = Some true.
Proof.
  intros Htp Hi. split.
  - rewrite lookup_app, Htp. simpl. now rewrite Hi.
  - rewrite parent_last. unfold kind. now rewrite Htp.
Qed.

Lemma copy2_ok (src dst : path) (d : fdata) (n : node) con :
  lookup src n = Some (File true d) ->
  lookup dst n = None ->
  kind (parent dst) n = Some true ->
  copy2 src dst (World n con) =
  (Ok dst, World (put dst (File true d) n) con).
Proof.
  intros Hsrc Hdst Hpar. apply kind_None in Hdst.
  unfold copy2. cbn [fs]. rewrite Hsrc. cbn [negb].
  rewrite Hdst. cbv zeta. rewrite Hdst, Hpar. reflexivity.
Qed.

Lemma copytree_ok (src dst : path) (es : listing) (n : node) con :
  lookup src n = Some (Dir es) ->
  all_readable (Dir es) = true ->
  lookup dst n = None ->
  kind (parent dst) n = Some true ->
  copytree src dst (World n con) =
  (Ok dst, World (put dst (Dir es) n) con).
Proof.
  intros Hsrc Hread Hdst Hpar.
  unfold copytree. cbn [fs]. rewrite Hsrc, Hdst.
  rewrite (copied_readable _ Hread), (put_parents_put _ _ _ Hpar), Hread.
  reflexivity.
Qed.

(** The step of the loop on an item that is there and readable. *)
Lemma copy_item_present (tp : path) (i : string) (x n : node) con staged :
  simple_name i = true ->
  lookup tp n = Some (Dir staged) ->
  assoc i staged = None ->
  lookup (script_dir ++ [i]) n = Some x ->
  all_readable x = true ->
  copy_item script_dir tp i (World n con) =
  (Ok tt, World (put (tp ++ [i]) x n) (con ++ copy_report script_dir n [i])).
Proof.
  intros Hi Htp Hfree Hsrc Hread.
  destruct (staging_slot_free tp i n staged Htp Hfree) as [Hdst Hpar].
  unfold copy_item, copy_report. rewrite !joinpath_simple by exact Hi.
  unfold bind at 1. unfold exists_. cbn [fs]. rewrite Hsrc. cbn [negb].
  unfold bind at 1. unfold is_dir, kind. cbn [fs]. rewrite Hsrc.
  destruct x as [r d|es].
  - simpl in Hread. subst r. unfold bind.
    rewrite (copy2_ok _ _ _ _ con Hsrc Hdst Hpar). simpl. now rewrite Hsrc.
  - unfold bind.
    rewrite (copytree_ok _ _ _ _ con Hsrc Hread Hdst Hpar). simpl. now rewrite Hsrc.
Qed.

Lemma copy_item_missing (tp : path) (i : string) (n : node) con :
  simple_name i = true ->
  lookup (script_dir ++ [i]) n = None ->
  copy_item script_dir tp i (World n con) =
  (Ok tt, World n (con ++ copy_report script_dir n [i])).
Proof.
  intros Hi Hsrc. unfold copy_item, copy_report.
  rewrite !joinpath_simple by exact Hi.
  unfold bind, exists_, print. simpl. now rewrite Hsrc.
Qed.

Lemma copy_items_ok (tp : path) (items : list string) :
  NoDup items ->
  Forall (fun i => simple_name i = true) items ->
  forall (n : node) con (staged : listing),
  lookup tp n = Some (Dir staged) ->
  (forall i, In i items -> assoc i staged = None) ->
  (forall i, In i items -> diverge tp (script_dir ++ [i]) = true) ->
  (forall i x, In i items -> lookup (script_dir ++ [i]) n = Some x ->
               all_readable x = true) ->
  exists n',
    for_each items (copy_item script_dir tp) (World n con) =
    (Ok tt, World n' (con ++ copy_report script_dir n items)) /\
    lookup tp n' = Some (Dir (staged ++ staged_entries script_dir n items)) /\
    (forall q, diverge tp q = true -> lookup q n' = lookup q n) /\
    (forall q, is_prefix tp q = false -> kind q n' = kind q n).
Proof.
  intros Hnd Hsimple. induction items as [|i items IH];
    intros n con staged Htp Hfree Hdiv Hread.
  - exists n. simpl. rewrite !app_nil_r. repeat split; auto.
  - inversion Hnd as [|? ? Hni Hnd']; subst.
    inversion Hsimple as [|? ? Hi Hsimple']; subst.
    assert (Hfree' : forall j, In j items -> assoc j staged = None)
      by (intros j Hj; apply Hfree; now right).
    assert (Hdiv' : forall j, In j items -> diverge tp (script_dir ++ [j]) = true)
      by (intros j Hj; apply Hdiv; now right).
    simpl for_each. unfold bind at 1.
    destruct (lookup (script_dir ++ [i]) n) as [x|] eqn:Hsrc.
    + assert (Hx : all_readable x = true)
        by (apply (Hread i x); [now left | exact Hsrc]).
      rewrite (copy_item_present tp i x n con staged Hi Htp
                 (Hfree i (or_introl eq_refl)) Hsrc Hx).
      destruct (stage_put tp i x n staged Htp (Hfree i (or_introl eq_refl)))
        as (Htp1 & Hlk1 & Hkd1).
      set (n1 := put (tp ++ [i]) x n) in *.
      assert (Hsame : forall j, In j items ->
                lookup (script_dir ++ [j]) n1 = lookup (script_dir ++ [j]) n)
        by (intros j Hj; apply Hlk1; now apply Hdiv').
      destruct (IH Hnd' Hsimple' n1 (con ++ copy_report script_dir n [i])
                  (staged ++ [(i, x)]) Htp1) as (n' & Hrun & Hst & Hlk & Hkd).
      * intros j Hj. apply assoc_app_fresh; [now apply Hfree'|].
        apply String.eqb_neq. intros ->. contradiction.
      * exact Hdiv'.
      * intros j y Hj Hy. rewrite (Hsame j Hj) in Hy.
        apply (Hread j y); [now right | exact Hy].
      * exists n'. rewrite Hrun.
        rewrite (copy_report_ext n n1 items Hsame) in *.
        rewrite (staged_entries_ext n n1 items Hsame) in Hst.
        split; [|split; [|split]].
        -- simpl copy_report. rewrite <- app_assoc. reflexivity.
        -- simpl staged_entries. rewrite Hsrc, Hst, <- app_assoc. reflexivity.
        -- intros q Hq. now rewrite Hlk, Hlk1.
        -- intros q Hq. now rewrite Hkd, Hkd1.
    + rewrite (copy_item_missing tp i n con Hi Hsrc).
      destruct (IH Hnd' Hsimple' n (con ++ copy_report script_dir n [i]) staged Htp
                  Hfree' Hdiv') as (n' & Hrun & Hst & Hlk & Hkd).
      * intros j y Hj. apply Hread. now right.
      * exists n'. rewrite Hrun. split; [|split; [|split]]; auto.
        -- simpl copy_report. rewrite <- app_assoc. reflexivity.
        -- simpl staged_entries. now rewrite Hsrc.
Qed.

End Loop.

End LoopFacts.
Import LoopFacts.

(* ================================================================== *)
(** * A whole build *)

Module BuildFacts.

Lemma all_readable_dir (es : listing) :
  (forall c m, In (c, m) es -> all_readable m = true) ->
  all_readable (Dir es) = true.
Proof.
  induction es as [|[c m] es IH]; intros H; [reflexivity|].
  rewrite all_readable_cons, (H c m (or_introl eq_refl)). simpl.
  apply IH. intros c' m' Hin. apply (H c' m'). now right.
Qed.

Lemma diverge_below (p p' q : path) :
  diverge p q = true -> is_prefix p p' = true -> diverge p' q = true.
Proof.
  intros Hd Hp. destruct (is_prefix_inv _ _ Hp) as [r ->].
  now apply diverge_app_l.
Qed.

Lemma not_prefix_below (p p' q : path) :
  is_prefix p q = false -> is_prefix p p' = true -> is_prefix p' q = false.
Proof.
  intros Hq Hp. destruct (is_prefix_inv _ _ Hp) as [r ->].
  now apply not_prefix_app_l.
Qed.

Lemma lookup_root_not_None (p : path) (n : node) :
  lookup p n = None -> p <> [].
Proof. intros H ->. discriminate H. Qed.

(** The block under [with], call by call. *)
Lemma staged_build_unfold (script_dir : path) (version : string)
      (temp_dir : path) (w : world) :
  staged_build script_dir version temp_dir w =
  bind (mkdir (joinpath temp_dir (zip_name version)))
    (fun _ =>
       bind (for_each INCLUDE
               (copy_item script_dir (joinpath temp_dir (zip_name version))))
         (fun _ =>
            bind (exists_ (zip_path script_dir version))
              (fun there =>
                 bind (if there then unlink (zip_path script_dir version)
                       else ret tt)
                   (fun _ =>
                      bind (make_archive
                              (joinpath (output_dir script_dir)
                                        (zip_name version))
                              temp_dir (zip_name version))
                        (fun _ => ret tt))))) w.
Proof.
  unfold staged_build, stage, bind.
  destruct (mkdir _ w) as [[[]|e] w1]; [|reflexivity].
  destruct (for_each _ _ w1) as [[[]|e] w2]; [|reflexivity].
  unfold exists_.
  destruct (lookup (zip_path script_dir version) (fs w2)); [|reflexivity].
  destruct (unlink _ w2) as [[[]|e] w3]; reflexivity.
Qed.

(** *** The primitives, where they succeed *)

Lemma mkdtemp_ok (tmp : path) (n : node) con :
  lookup tmp n = None ->
  kind (parent tmp) n = Some true ->
  mkdtemp tmp (World n con) = (Ok tmp, World (put tmp (Dir []) n) con).
Proof.
  intros Hfresh Hpar. unfold mkdtemp. cbn [fs]. now rewrite Hfresh, Hpar.
Qed.

Lemma mkdir_ok (p : path) (n : node) con :
  lookup p n = None ->
  kind (parent p) n = Some true ->
  mkdir p (World n con) = (Ok tt, World (put p (Dir []) n) con).
Proof.
  intros Hfresh Hpar. unfold mkdir. cbn [fs]. now rewrite Hfresh, Hpar.
Qed.

Lemma unlink_if_exists (p : path) (n : node) con :
  kind p n <> Some true ->
  bind (exists_ p) (fun there => if there then unlink p else ret tt)
       (World n con) = (Ok tt, World (without p n) con).
Proof.
  intros Hk. unfold bind, exists_, unlink, without, kind in *. cbn [fs].
  destruct (lookup p n) as [[r d|es]|] eqn:E; simpl; rewrite ?E;
    try reflexivity.
  now elim Hk.
Qed.

Lemma lookup_without_same (p : path) (n : node) :
  p <> [] -> lookup p (without p n) = None.
Proof.
  intros Hp. unfold without. destruct (lookup p n) eqn:E; [|exact E].
  now apply lookup_rm_same.
Qed.

Lemma lookup_without_diverge (p q : path) (n : node) :
  diverge p q = true -> lookup q (without p n) = lookup q n.
Proof.
  intros H. unfold without. destruct (lookup p n); [|reflexivity].
  now apply lookup_rm_diverge.
Qed.

Lemma kind_without_outside (p q : path) (n : node) :
  is_prefix p q = false -> kind q (without p n) = kind q n.
Proof.
  intros H. unfold without. destruct (lookup p n); [|reflexivity].
  now apply kind_rm_outside.
Qed.

Lemma stat_ok (p : path) (x n : node) con :
  lookup p n = Some x -> stat p (World n con) = (Ok x, World n con).
Proof. intros H. unfold stat. cbn [fs]. now rewrite H. Qed.

(** [make_archive] of a readable directory [root/name] into an existing
    directory, where no directory is in the way of the archive. *)
Lemma make_archive_ok (out root : path) (name : string) (es : listing)
      (n : node) con :
  simple_name name = true ->
  kind out n = Some true ->
  kind (out ++ [name +++ ".zip"]) n = None ->
  lookup (root ++ [name]) n = Some (Dir es) ->
  all_readable (Dir es) = true ->
  make_archive (out ++ [name]) root name (World n con) =
  (Ok (out ++ [name +++ ".zip"]),
   World (put (out ++ [name +++ ".zip"])
              (File true (Zip (fst (zip_write [name] (Dir es))))) n) con).
Proof.
  intros Hname Hout Hfree Htree Hread.
  unfold make_archive. cbn [fs].
  rewrite add_suffix_last, !parent_last, joinpath_simple, parts_simple
    by exact Hname.
  destruct (kind_lookup_dir _ _ Hout) as [es0 Hout'].
  rewrite Hout', Hfree, Hout, Htree.
  pose proof (zip_write_complete (Dir es) [name] Hread) as Hok.
  destruct (zip_write [name] (Dir es)) as [ms ok]. simpl in Hok. subst ok.
  reflexivity.
Qed.

Section Release.

Variables script_dir tmp_name : path.

Lemma zip_name_simple (version : string) :
  no_sep version = true -> simple_name (zip_name version) = true.
Proof.
  intros H. unfold simple_name, zip_name. rewrite no_sep_app, H. reflexivity.
Qed.

Lemma zip_file_simple (version : string) :
  no_sep version = true ->
  simple_name (zip_name version +++ ".zip") = true.
Proof.
  intros H. unfold simple_name, zip_name. rewrite !no_sep_app, H. reflexivity.
Qed.

Lemma zip_path_eq (version : string) :
  no_sep version = true ->
  zip_path script_dir version = parent script_dir ++ [zip_name version +++ ".zip"].
Proof.
  intros H. unfold zip_path, output_dir.
  now rewrite joinpath_simple by now apply zip_file_simple.
Qed.

Lemma INCLUDE_simple : Forall (fun i => simple_name i = true) INCLUDE.
Proof. repeat constructor. Qed.

Lemma INCLUDE_NoDup : NoDup INCLUDE.
Proof.
  unfold INCLUDE.
  repeat (constructor; [simpl; intuition discriminate|]). constructor.
Qed.

Lemma release_members_ext (version : string) (n n' : node) :
  (forall i, In i INCLUDE -> lookup (script_dir ++ [i]) n' = lookup (script_dir ++ [i]) n) ->
  release_members script_dir version n' = release_members script_dir version n.
Proof.
  intros H. unfold release_members.
  now rewrite (staged_entries_ext script_dir n n' INCLUDE H).
Qed.

Lemma staged_readable (n : node) :
  forallb (readable_item script_dir n) INCLUDE = true ->
  all_readable (Dir (staged_entries script_dir n INCLUDE)) = true.
Proof.
  intros H. apply all_readable_dir. intros c m Hin.
  apply staged_entries_In in Hin as [Hc Hm].
  rewrite forallb_forall in H. specialize (H c Hc).
  unfold readable_item in H. now rewrite Hm in H.
Qed.

(** The block under [with], run in a temporary directory that was just
    made. *)
Lemma staged_build_ok (version : string) (n : node) con :
  no_sep version = true ->
  lookup tmp_name n = Some (Dir []) ->
  kind (parent script_dir) n = Some true ->
  forallb (fun i => diverge tmp_name (script_dir ++ [i])) INCLUDE = true ->
  diverge tmp_name (zip_path script_dir version) = true ->
  not_a_dir (zip_path script_dir version) n = true ->
  forallb (readable_item script_dir n) INCLUDE = true ->
  exists n',
    staged_build script_dir version tmp_name (World n con) =
    (Ok tt, World n' (con ++ copy_report script_dir n INCLUDE)) /\
    lookup (zip_path script_dir version) n' = Some (release_archive script_dir version n) /\
    (forall q, diverge tmp_name q = true -> diverge (zip_path script_dir version) q = true ->
               lookup q n' = lookup q n) /\
    (forall q, is_prefix tmp_name q = false ->
               is_prefix (zip_path script_dir version) q = false ->
               kind q n' = kind q n).
Proof.
  intros Hv Htmp Hout Hsrc Hzp Hnd Hread.
  pose proof (zip_name_simple version Hv) as Hzn.
  pose proof (zip_path_eq version Hv) as Ezp.
  set (zn := zip_name version) in *.
  set (tp := tmp_name ++ [zn]).
  rewrite forallb_forall in Hsrc.
  assert (Htp_under : is_prefix tmp_name tp = true) by apply is_prefix_app.
  (* mkdir temp_path *)
  assert (Hk_tmp : kind tmp_name n = Some true)
    by (unfold kind; now rewrite Htmp).
  assert (Hfree : lookup tp n = None)
    by (unfold tp; rewrite lookup_app, Htmp; reflexivity).
  assert (Hpar : kind (parent tp) n = Some true)
    by (unfold tp; now rewrite parent_last).
  set (n2 := put tp (Dir []) n).
  assert (Htp2 : lookup tp n2 = Some (Dir []))
    by (apply lookup_put_same; exact Hpar).
  assert (Hlk2 : forall q, diverge tmp_name q = true ->
                           lookup q n2 = lookup q n).
  { intros q Hq. apply lookup_put_diverge.
    now apply diverge_below with (p := tmp_name). }
  assert (Hkd2 : forall q, is_prefix tmp_name q = false ->
                           kind q n2 = kind q n).
  { intros q Hq. apply kind_put_outside.
    now apply not_prefix_below with (p := tmp_name). }
  assert (Hsame2 : forall i, In i INCLUDE ->
                     lookup (script_dir ++ [i]) n2 = lookup (script_dir ++ [i]) n)
    by (intros i Hi; apply Hlk2; now apply Hsrc).
  (* the copy loop *)
  destruct (copy_items_ok script_dir tp INCLUDE INCLUDE_NoDup INCLUDE_simple
              n2 con [] Htp2) as (n3 & Hloop & Hst3 & Hlk3 & Hkd3).
  { reflexivity. }
  { intros i Hi. apply diverge_below with (p := tmp_name); auto. }
  { intros i x Hi Hx. rewrite (Hsame2 i Hi) in Hx.
    rewrite forallb_forall in Hread. specialize (Hread i Hi).
    unfold readable_item in Hread. now rewrite Hx in Hread. }
  rewrite (copy_report_ext script_dir n n2 INCLUDE Hsame2) in Hloop.
  rewrite (staged_entries_ext script_dir n n2 INCLUDE Hsame2) in Hst3.
  rewrite app_nil_l in Hst3.
  (* the old archive goes *)
  assert (Hzp_tp : diverge (zip_path script_dir version) tp = true).
  { unfold tp. apply diverge_app_r. now rewrite diverge_sym. }
  assert (Hk_zp3 : kind (zip_path script_dir version) n3 <> Some true).
  { unfold kind. rewrite Hlk3, Hlk2.
    - unfold not_a_dir, kind in Hnd.
      destruct (lookup (zip_path script_dir version) n) as [[r d|es]|]; congruence.
    - exact Hzp.
    - apply diverge_below with (p := tmp_name); auto. }
  set (n4 := without (zip_path script_dir version) n3).
  assert (Hzp_ne : zip_path script_dir version <> []) by (rewrite Ezp; now destruct (parent script_dir)).
  assert (Hfree4 : kind (zip_path script_dir version) n4 = None)
    by (apply kind_None; now apply lookup_without_same).
  (* the archive *)
  assert (Hout_tmp : is_prefix tmp_name (parent script_dir) = false).
  { apply diverge_shorten with (r := [zn +++ ".zip"]). now rewrite <- Ezp. }
  assert (Hout4 : kind (parent script_dir) n4 = Some true).
  { unfold n4. rewrite kind_without_outside, Hkd3, Hkd2; auto.
    - now apply not_prefix_below with (p := tmp_name).
    - rewrite Ezp. apply is_prefix_longer. }
  assert (Htree4 : lookup (tmp_name ++ [zn]) n4 =
                   Some (Dir (staged_entries script_dir n INCLUDE))).
  { unfold n4. rewrite lookup_without_diverge by exact Hzp_tp. exact Hst3. }
  pose proof (staged_readable n Hread) as Hread'.
  rewrite Ezp in Hfree4.
  pose proof (make_archive_ok (parent script_dir) tmp_name zn _ n4
                (con ++ copy_report script_dir n INCLUDE)
                Hzn Hout4 Hfree4 Htree4 Hread') as Harch.
  rewrite <- Ezp in Harch, Hfree4.
  set (n5 := put (zip_path script_dir version) (release_archive script_dir version n) n4).
  exists n5. split; [|split; [|split]].
  - rewrite staged_build_unfold. fold zn.
    rewrite (joinpath_simple tmp_name zn Hzn).
    rewrite (joinpath_simple (output_dir script_dir) zn Hzn). fold tp.
    unfold bind at 1. rewrite (mkdir_ok tp n con Hfree Hpar). fold n2.
    unfold bind at 1. rewrite Hloop.
    match goal with
    | |- bind ?c ?k ?w = _ =>
        change (bind c k w) with
          (bind (bind (exists_ (zip_path script_dir version))
                   (fun there => if there then unlink (zip_path script_dir version) else ret tt))
                (fun _ => bind (make_archive (output_dir script_dir ++ [zn])
                                  tmp_name zn) (fun _ => ret tt)) w)
    end.
    unfold bind at 1. rewrite (unlink_if_exists _ n3 _ Hk_zp3). fold n4.
    unfold bind, output_dir. rewrite Harch. reflexivity.
  - unfold n5. apply lookup_put_same.
    rewrite Ezp, parent_last. exact Hout4.
  - intros q Hq1 Hq2. unfold n5, n4.
    rewrite lookup_put_diverge, lookup_without_diverge, Hlk3, Hlk2; auto.
    now apply diverge_below with (p := tmp_name).
  - intros q Hq1 Hq2. unfold n5, n4.
    rewrite kind_put_outside, kind_without_outside, Hkd3, Hkd2; auto.
    now apply not_prefix_below with (p := tmp_name).
Qed.

(** A build on a disk that is fit for it. *)
Lemma build_release_ok (version : string) (n : node) con :
  ready script_dir tmp_name version n ->
  exists n',
    build_release script_dir tmp_name version (World n con) =
    (Ok (zip_path script_dir version),
     World n' (con ++ build_report script_dir version n)) /\
    lookup (zip_path script_dir version) n' =
      Some (release_archive script_dir version n) /\
    lookup tmp_name n' = None /\
    (forall q, diverge tmp_name q = true ->
               diverge (zip_path script_dir version) q = true ->
               lookup q n' = lookup q n) /\
    (forall q, is_prefix tmp_name q = false ->
               is_prefix (zip_path script_dir version) q = false ->
               kind q n' = kind q n).
Proof.
  intros [Hv Hsd Hfresh Hpar Hsrc Hzp Hnd Hread].
  pose proof (zip_path_eq version Hv) as Ezp.
  pose proof (lookup_root_not_None _ _ Hfresh) as Htmp_ne.
  set (n1 := put tmp_name (Dir []) n).
  assert (Hlk1 : forall q, diverge tmp_name q = true ->
                           lookup q n1 = lookup q n)
    by (intros q Hq; now apply lookup_put_diverge).
  assert (Hkd1 : forall q, is_prefix tmp_name q = false ->
                           kind q n1 = kind q n)
    by (intros q Hq; now apply kind_put_outside).
  assert (Hsame1 : forall i, In i INCLUDE ->
            lookup (script_dir ++ [i]) n1 = lookup (script_dir ++ [i]) n).
  { intros i Hi. apply Hlk1. rewrite forallb_forall in Hsrc. now apply Hsrc. }
  destruct (staged_build_ok version n1
              (con ++ [Text ("[BUILD] Creating release v" +++ version)]
                   ++ [Text ("[BUILD] Output: "
                               +++ render (zip_path script_dir version))])
              Hv) as (n5 & Hrun & Harch & Hlk5 & Hkd5).
  { apply lookup_put_same. exact Hpar. }
  { rewrite Hkd1; [now apply kind_parent|].
    apply diverge_shorten with (r := [zip_name version +++ ".zip"]).
    now rewrite <- Ezp. }
  { exact Hsrc. }
  { exact Hzp. }
  { unfold not_a_dir in *. rewrite Hkd1; [exact Hnd|].
    now apply diverge_not_prefix. }
  { rewrite forallb_forall in *. intros i Hi. unfold readable_item.
    rewrite (Hsame1 i Hi). now apply Hread. }
  rewrite (copy_report_ext script_dir n n1 INCLUDE Hsame1) in Hrun.
  unfold release_archive in Harch.
  rewrite (release_members_ext version n n1 Hsame1) in Harch.
  fold (release_archive script_dir version n) in Harch.
  assert (Hfinal : lookup (zip_path script_dir version) (rm tmp_name n5) =
                   Some (release_archive script_dir version n))
    by (rewrite lookup_rm_diverge; [exact Harch | exact Hzp]).
  exists (rm tmp_name n5). split; [|split; [|split; [|split]]].
  - unfold build_release.
    unfold bind at 1. unfold print at 1. cbn [fs console].
    unfold bind at 1. unfold print at 1. cbn [fs console].
    unfold bind at 1. unfold with_TemporaryDirectory.
    rewrite (mkdtemp_ok tmp_name n _ Hfresh Hpar). fold n1.
    rewrite <- app_assoc, Hrun. unfold cleanup, set_fs. cbn [fs console].
    unfold bind at 1. unfold print at 1. cbn [fs console].
    unfold bind at 1. rewrite (stat_ok _ _ _ _ Hfinal).
    unfold bind, print_size, ret, build_report. cbn [fs console].
    repeat rewrite <- app_assoc. reflexivity.
  - exact Hfinal.
  - now apply lookup_rm_same.
  - intros q Hq1 Hq2. rewrite lookup_rm_diverge, Hlk5, Hlk1; auto.
  - intros q Hq1 Hq2. rewrite kind_rm_outside, Hkd5, Hkd1; auto.
Qed.

End Release.

End BuildFacts.
Import BuildFacts.

(* ================================================================== *)
(** * What the archive holds *)

Module ArchiveFacts.

(** Every node of a readable tree is a member, under its path. *)
Lemma zip_write_nodes (n : node) (arc q : path) (m : node) :
  all_readable n = true ->
  lookup q n = Some m ->
  In (arc ++ q, payload m) (fst (zip_write arc n)).
Proof.
  revert arc q. induction n as [r0 d0|es IH] using node_tree_ind;
    intros arc q Hr Hq.
  - destruct q; [|discriminate Hq]. simpl in *. injection Hq as <-.
    rewrite Hr, app_nil_r. now left.
  - rewrite zip_write_dir. simpl.
    destruct q as [|c q].
    { injection Hq as <-. left. now rewrite app_nil_r. }
    right. simpl in Hq.
    induction IH as [|[c0 m0] es Hm _ IHes]; [discriminate Hq|].
    rewrite all_readable_cons in Hr. apply andb_true_iff in Hr as [H1 H2].
    simpl in Hq, Hm |- *.
    pose proof (zip_write_complete m0 (arc ++ [c0]) H1) as Hok.
    destruct (zip_write (arc ++ [c0]) m0) as [ms1 ok1] eqn:E1.
    simpl in Hok. subst ok1.
    destruct (zip_entries arc es) as [ms2 ok2] eqn:E2. simpl.
    apply in_or_app.
    destruct (c0 =? c) eqn:Ec.
    + left. apply String.eqb_eq in Ec. subst c0.
      specialize (Hm (arc ++ [c]) q H1 Hq). rewrite E1 in Hm. simpl in Hm.
      now rewrite <- app_assoc in Hm.
    + right. now apply IHes.
Qed.

Lemma is_prefix_other_entry (arc : path) (c i : string) (a : path) :
  is_prefix (arc ++ [c]) a = true -> c <> i ->
  is_prefix (arc ++ [i]) a = false.
Proof.
  revert a. induction arc as [|x arc IH]; intros a Ha Hc.
  - destruct a as [|b a]; [discriminate Ha|]. simpl in *.
    rewrite andb_true_r in *. apply String.eqb_eq in Ha. subst b.
    apply String.eqb_neq. congruence.
  - destruct a as [|b a]; [discriminate Ha|]. simpl in *.
    apply andb_true_iff in Ha as [Hx Ha]. rewrite Hx. simpl. now apply IH.
Qed.

Section Staged.

Variable script_dir : path.

Lemma assoc_staged_missing (n : node) (items : list string) (i : string) :
  lookup (script_dir ++ [i]) n = None ->
  assoc i (staged_entries script_dir n items) = None.
Proof.
  intros Hi. induction items as [|j items IH]; [reflexivity|].
  simpl. destruct (lookup (script_dir ++ [j]) n) as [x|] eqn:Hj; [|exact IH].
  simpl. destruct (j =? i) eqn:E; [|exact IH].
  apply String.eqb_eq in E. subst j. congruence.
Qed.

Lemma assoc_staged (n : node) (items : list string) (i : string) :
  In i items ->
  assoc i (staged_entries script_dir n items) = lookup (script_dir ++ [i]) n.
Proof.
  induction items as [|j items IH]; intros Hin; [destruct Hin|].
  simpl. destruct (String.eqb_spec j i) as [->|Hne].
  - destruct (lookup (script_dir ++ [i]) n) as [x|] eqn:Hi.
    + simpl. now rewrite String.eqb_refl.
    + simpl. now apply assoc_staged_missing.
  - destruct Hin as [->|Hin]; [congruence|].
    destruct (lookup (script_dir ++ [j]) n) as [x|]; [|now apply IH].
    simpl. apply String.eqb_neq in Hne. rewrite Hne. now apply IH.
Qed.

(** A listed item that is on disk, and everything in it, is in the
    release under the archive's top directory. *)
Lemma release_members_present (version : string) (n : node)
      (i : string) (q : path) (m : node) :
  forallb (readable_item script_dir n) INCLUDE = true ->
  In i INCLUDE ->
  lookup (script_dir ++ i :: q) n = Some m ->
  In (zip_name version :: i :: q, payload m)
     (release_members script_dir version n).
Proof.
  intros Hread Hi Hm. unfold release_members.
  apply (zip_write_nodes _ [zip_name version] (i :: q) m).
  - now apply staged_readable.
  - cbn [lookup]. rewrite (assoc_staged n INCLUDE i Hi).
    change (script_dir ++ i :: q) with (script_dir ++ [i] ++ q) in Hm.
    rewrite app_assoc, lookup_app in Hm.
    destruct (lookup (script_dir ++ [i]) n); [exact Hm | discriminate].
Qed.

(** A listed item that is not on disk has no member in the release. *)
Lemma release_members_missing (version : string) (n : node)
      (i : string) (a : path) x :
  lookup (script_dir ++ [i]) n = None ->
  In (a, x) (release_members script_dir version n) ->
  is_prefix [zip_name version; i] a = false.
Proof.
  intros Hi Hin. unfold release_members in Hin.
  apply zip_write_dir_names in Hin as [->|(c & m & Hc & Hp)].
  - simpl. now rewrite String.eqb_refl.
  - apply (is_prefix_other_entry [zip_name version] c i a Hp).
    apply staged_entries_In in Hc as [_ Hc]. intros ->. congruence.
Qed.


End Staged.

End ArchiveFacts.
Import ArchiveFacts.

(* ================================================================== *)
(** * Runs that may fail *)

Module FrameFacts.

Lemma diverge_false (p q : path) :
  diverge p q = false -> is_prefix p q = true \/ is_prefix q p = true.
Proof.
  revert q. induction p as [|a p IH]; intros q H; [now left|].
  destruct q as [|b q]; [now right|]. simpl in *.
  rewrite (String.eqb_sym b a).
  destruct (a =? b); [|discriminate H]. simpl. now apply IH.
Qed.

Lemma lookup_below_file (p q : path) (n : node) r d :
  lookup p n = Some (File r d) -> q <> [] -> lookup (p ++ q) n = None.
Proof.
  intros Hp Hq. rewrite lookup_app, Hp. destruct q; [congruence | reflexivity].
Qed.

(** A new name in an existing directory has nothing to do with a file
    that is already there. *)
Lemma fresh_dir_diverges_file (tmp p : path) (n : node) r d :
  lookup tmp n = None ->
  kind (parent tmp) n = Some true ->
  lookup p n = Some (File r d) ->
  diverge tmp p = true.
Proof.
  intros Hfresh Hpar Hp.
  destruct (diverge tmp p) eqn:E; [reflexivity|]. exfalso.
  apply diverge_false in E as [E|E]; apply is_prefix_inv in E as [s ->].
  - rewrite (lookup_below_None _ s _ Hfresh) in Hp. discriminate.
  - destruct (exists_last (l := s)) as (s' & l & ->).
    + intros ->. rewrite app_nil_r in Hfresh. congruence.
    + rewrite app_assoc in Hpar. unfold parent in Hpar.
      rewrite removelast_last in Hpar. unfold kind in Hpar.
      rewrite lookup_app, Hp in Hpar. destruct s'; discriminate Hpar.
Qed.

Lemma lookup_put_parents_diverge (p q : path) (m n n' : node) :
  put_parents p m n = Some n' ->
  diverge p q = true -> lookup q n' = lookup q n.
Proof.
  revert q n n'. induction p as [|a p IH]; intros q n n' Hput H;
    [discriminate H|].
  destruct q as [|b q]; [discriminate H|].
  destruct n as [r d|es]; [discriminate Hput|].
  simpl in Hput, H.
  destruct (put_parents p m
              (match assoc a es with Some x => x | None => Dir [] end))
    as [x'|] eqn:Ex; [|discriminate Hput].
  injection Hput as <-. simpl.
  destruct (a =? b) eqn:E.
  - apply String.eqb_eq in E. subst b. rewrite assoc_set_same.
    rewrite (IH q _ _ Ex H).
    destruct (assoc a es); [reflexivity|]. now destruct p, q.
  - now rewrite assoc_set_other.
Qed.

Section Frames.

Variable script_dir : path.

(** Whatever one round of the loop does, it does below the staging
    directory. *)
Lemma copy_item_frame (tp : path) (i : string) (w w' : world) r :
  simple_name i = true ->
  copy_item script_dir tp i w = (r, w') ->
  forall q, diverge tp q = true -> lookup q (fs w') = lookup q (fs w).
Proof.
  intros Hi Hrun q Hq. unfold copy_item in Hrun.
  rewrite !joinpath_simple in Hrun by exact Hi.
  unfold bind, exists_, is_dir, print in Hrun. cbn [fs] in Hrun.
  destruct (lookup (script_dir ++ [i]) (fs w)) as [x|] eqn:Hsrc;
    cbn [negb] in Hrun; [|now injection Hrun as _ <-].
  destruct (kind (script_dir ++ [i]) (fs w)) as [[|]|] eqn:Hk.
  - unfold copytree in Hrun. rewrite Hsrc in Hrun.
    destruct x as [rd d|es]; [now injection Hrun as _ <-|].
    destruct (lookup (tp ++ [i]) (fs w)); [now injection Hrun as _ <-|].
    destruct (put_parents (tp ++ [i]) (copied (Dir es)) (fs w)) as [n'|] eqn:Ep;
      [|now injection Hrun as _ <-].
    assert (lookup q n' = lookup q (fs w))
      by (apply (lookup_put_parents_diverge _ _ _ _ _ Ep);
          now apply diverge_app_l).
    destruct (all_readable (Dir es)); now injection Hrun as _ <-.
  - unfold copy2 in Hrun. rewrite Hsrc in Hrun.
    destruct x as [rd d|es]; [|now injection Hrun as _ <-].
    destruct (negb rd); [now injection Hrun as _ <-|].
    cbv zeta in Hrun.
    match type of Hrun with
    | context [put ?t _ _] =>
        assert (Ht : diverge t q = true)
          by (destruct (kind (tp ++ [i]) (fs w)) as [[|]|];
              rewrite <- ?app_assoc; now apply diverge_app_l);
        destruct (kind t (fs w)) as [[|]|];
        destruct (kind (parent t) (fs w)) as [[|]|];
        injection Hrun as _ <-; try reflexivity;
        cbn [fs set_fs]; now apply lookup_put_diverge
    end.
  - exfalso. unfold kind in Hk. rewrite Hsrc in Hk. now destruct x.
Qed.

Lemma copy_items_frame (tp : path) (items : list string) :
  Forall (fun i => simple_name i = true) items ->
  forall (w w' : world) r,
  for_each items (copy_item script_dir tp) w = (r, w') ->
  forall q, diverge tp q = true -> lookup q (fs w') = lookup q (fs w).
Proof.
  induction 1 as [|i items Hi _ IH]; intros w w' r Hrun q Hq.
  - now injection Hrun as _ <-.
  - simpl in Hrun. unfold bind in Hrun.
    destruct (copy_item script_dir tp i w) as [[[]|e] w1] eqn:E1.
    + rewrite (IH _ _ _ Hrun q Hq). apply (copy_item_frame _ _ _ _ _ Hi E1 q Hq).
    + injection Hrun as _ <-. apply (copy_item_frame _ _ _ _ _ Hi E1 q Hq).
Qed.

End Frames.

Section Shape.

Variables script_dir tmp_name : path.

(** The run after the [with] block: the report and the size. *)
Lemma build_release_unfold (version : string) (w : world) :
  build_release script_dir tmp_name version w =
  match with_TemporaryDirectory tmp_name (staged_build script_dir version)
          (World (fs w)
             ((console w
                 ++ [Text ("[BUILD] Creating release v" +++ version)])
                 ++ [Text ("[BUILD] Output: "
                             +++ render (zip_path script_dir version))]))
  with
  | (Raise e, w1) => (Raise e, w1)
  | (Ok _, w1) =>
      let done :=
        Text ("[BUILD] Done! Created: "
                +++ render (zip_path script_dir version)) in
      match lookup (zip_path script_dir version) (fs w1) with
      | None => (Raise FileNotFoundError, World (fs w1) (console w1 ++ [done]))
      | Some st =>
          (Ok (zip_path script_dir version),
           World (fs w1) ((console w1 ++ [done]) ++ [SizeKB st]))
      end
  end.
Proof.
  unfold build_release, bind, print, stat, print_size, ret. cbn [fs console].
  destruct (with_TemporaryDirectory _ _ _) as [[u|e] w1]; [|reflexivity].
  cbn [fs console].
  destruct (lookup (zip_path script_dir version) (fs w1)); reflexivity.
Qed.

(** A run changes the disk only inside the [with] block. *)
Lemma build_release_fs (version : string) (w w' : world) r :
  build_release script_dir tmp_name version w = (r, w') ->
  exists r1 w1,
    with_TemporaryDirectory tmp_name (staged_build script_dir version)
      (World (fs w)
         ((console w ++ [Text ("[BUILD] Creating release v" +++ version)])
            ++ [Text ("[BUILD] Output: "
                        +++ render (zip_path script_dir version))]))
    = (r1, w1) /\ fs w' = fs w1.
Proof.
  rewrite build_release_unfold.
  destruct (with_TemporaryDirectory _ _ _) as [[u|e] w1]; intros H.
  - exists (Ok u), w1. split; [reflexivity|].
    cbv zeta in H.
    destruct (lookup (zip_path script_dir version) (fs w1));
      now injection H as _ <-.
  - exists (Raise e), w1. split; [reflexivity|]. now injection H as _ <-.
Qed.

(** Leaving the [with] block, nothing is left of the directory. *)
Lemma with_TemporaryDirectory_gone A (body : path -> M A) (w w' : world) r :
  lookup tmp_name (fs w) = None ->
  with_TemporaryDirectory tmp_name body w = (r, w') ->
  forall q, lookup (tmp_name ++ q) (fs w') = None.
Proof.
  intros Hfresh Hrun q. unfold with_TemporaryDirectory, mkdtemp in Hrun.
  rewrite Hfresh in Hrun.
  destruct (kind (parent tmp_name) (fs w)) as [[|]|];
    try (injection Hrun as _ <-; now apply lookup_below_None).
  destruct (body tmp_name _) as [r2 w2]. injection Hrun as _ <-.
  unfold cleanup, set_fs. cbn [fs].
  apply lookup_rm_below. now apply (lookup_root_not_None _ (fs w)).
Qed.

End Shape.

End FrameFacts.
Import FrameFacts.

(* ================================================================== *)
(** * Building again *)

Module RebuildFacts.

Lemma diverge_common (s a b : path) : diverge (s ++ a) (s ++ b) = diverge a b.
Proof.
  induction s as [|x s IH]; simpl; [reflexivity|].
  now rewrite String.eqb_refl.
Qed.

Section Rebuild.

Variables script_dir tmp_name : path.



End Rebuild.

End RebuildFacts.
Import RebuildFacts.

(* ================================================================== *)
(** * Runs that return *)

Module ReturnFacts.

Lemma segments_cons (s : string) : exists h t, segments s = h :: t.
Proof.
  induction s as [|c s (h & t & IH)]; simpl; [now exists "", []|].
  destruct (is_sep c); [now eexists _, _|]. rewrite IH. now eexists _, _.
Qed.

(** Up to the first separator a string is one piece. *)
Lemma segments_app_no_sep (a b : string) :
  no_sep a = true ->
  segments (a +++ b) = (a +++ hd "" (segments b)) :: tl (segments b).
Proof.
  intros Ha. destruct (segments_cons b) as (h & t & Eb).
  induction a as [|c a IH]; simpl.
  - now rewrite Eb.
  - simpl in Ha. apply andb_true_iff in Ha as [Hc Ha].
    apply negb_true_iff in Hc. now rewrite Hc, (IH Ha).
Qed.

Lemma first_sep (v : string) :
  no_sep v = false ->
  exists a r, v = a +++ String "/" r /\ no_sep a = true.
Proof.
  induction v as [|c v IH]; [discriminate|]. simpl.
  destruct (is_sep c) eqn:Ec; simpl.
  - intros _. exists "", v. split; [|reflexivity].
    unfold is_sep in Ec. apply Ascii.eqb_eq in Ec. now subst c.
  - intros H. destruct (IH H) as (a & r & -> & Ha).
    exists (String c a), r. split; [reflexivity|]. simpl. now rewrite Ec.
Qed.

Lemma append_assoc (a b c : string) : (a +++ b) +++ c = a +++ b +++ c.
Proof. induction a as [|x a IH]; simpl; [reflexivity | now rewrite IH]. Qed.

Lemma append_nil_r (a : string) : a +++ "" = a.
Proof. induction a as [|x a IH]; simpl; [reflexivity | now rewrite IH]. Qed.

Lemma append_suffix_neq (c : string) : c +++ ".zip" <> c.
Proof.
  induction c as [|x c IH]; simpl; intros H; [discriminate H|].
  injection H as H. now apply IH.
Qed.

(** With a suffix that is a file name on it, a string has a last
    component. *)
Lemma parts_suffix_nonempty (r : string) : parts (r +++ ".zip") <> [].
Proof.
  unfold parts. induction r as [|c r IH]; simpl; [discriminate|].
  destruct (is_sep c); simpl; [exact IH|].
  destruct (segments (r +++ ".zip")) as [|x xs]; [now elim IH|].
  simpl in *. destruct (kept x) eqn:Kx.
  - assert (K : kept (String c x) = true).
    { destruct x as [|y x]; [discriminate Kx|].
      unfold kept. simpl. destruct (Ascii.eqb c "."); reflexivity. }
    rewrite K. discriminate.
  - destruct (kept (String c x)); [discriminate | exact IH].
Qed.

(** The components of [zip_name v] and of the archive's file name when
    the version has a separator in it. *)
Lemma parts_zip_name_sep (v : string) :
  no_sep v = false ->
  exists c r,
    parts (zip_name v) = c :: parts r /\
    parts (zip_name v +++ ".zip") = c :: parts (r +++ ".zip").
Proof.
  intros Hv. destruct (first_sep v Hv) as (a & r & -> & Ha).
  exists (zip_name a), r.
  assert (Hpa : no_sep (zip_name a) = true)
    by (unfold zip_name; now rewrite no_sep_app, Ha).
  assert (Hk : kept (zip_name a) = true) by reflexivity.
  unfold parts. split.
  - change (zip_name (a +++ String "/" r)) with
      ("PulsoidWidget-to-OSC-v" +++ a +++ String "/" r).
    rewrite <- append_assoc. fold (zip_name a).
    rewrite segments_app_no_sep by exact Hpa.
    change (segments (String "/" r)) with ("" :: segments r).
    cbn [hd tl]. rewrite append_nil_r. cbn [filter]. rewrite Hk. reflexivity.
  - change (zip_name (a +++ String "/" r) +++ ".zip") with
      (("PulsoidWidget-to-OSC-v" +++ a +++ String "/" r) +++ ".zip").
    rewrite <- append_assoc. fold (zip_name a). rewrite append_assoc.
    rewrite segments_app_no_sep by exact Hpa.
    change (String "/" r +++ ".zip") with (String "/" (r +++ ".zip")).
    change (segments (String "/" (r +++ ".zip")))
      with ("" :: segments (r +++ ".zip")).
    cbn [hd tl]. rewrite append_nil_r. cbn [filter]. rewrite Hk. reflexivity.
Qed.

Lemma joinpath_zip_name (p : path) (v suffix : string) :
  joinpath p (zip_name v +++ suffix) = p ++ parts (zip_name v +++ suffix).
Proof. reflexivity. Qed.

(** *** What is left where something was removed or added *)

Lemma lookup_rm_None (p q : path) (n : node) :
  lookup q n = None -> lookup q (rm p n) = None.
Proof.
  revert q n. induction p as [|c p IH]; intros q n H; [exact H|].
  destruct n as [r d|es]; [exact H|].
  destruct q as [|b q]; [discriminate H|].
  simpl in H.
  destruct p as [|c' p'].
  - simpl. destruct (String.eqb_spec c b) as [->|Hne].
    + now rewrite assoc_del_same.
    + apply String.eqb_neq in Hne. now rewrite assoc_del_other.
  - change (rm (c :: c' :: p') (Dir es)) with
      (match assoc c es with
       | Some x => Dir (set_entry c (rm (c' :: p') x) es)
       | None => Dir es
       end).
    destruct (assoc c es) as [x|] eqn:Ec; [|exact H].
    simpl. destruct (String.eqb_spec c b) as [->|Hne].
    + rewrite assoc_set_same. rewrite Ec in H. now apply IH.
    + apply String.eqb_neq in Hne. now rewrite assoc_set_other.
Qed.

Lemma lookup_rm_file (p q : path) (n : node) r d :
  lookup q n = Some (File r d) ->
  lookup q (rm p n) = Some (File r d) \/ lookup q (rm p n) = None.
Proof.
  revert q n. induction p as [|c p IH]; intros q n H; [now left|].
  destruct n as [r0 d0|es]; [now left|].
  destruct q as [|b q]; [discriminate H|].
  simpl in H.
  destruct p as [|c' p'].
  - simpl. destruct (String.eqb_spec c b) as [->|Hne].
    + right. now rewrite assoc_del_same.
    + left. apply String.eqb_neq in Hne. now rewrite assoc_del_other.
  - change (rm (c :: c' :: p') (Dir es)) with
      (match assoc c es with
       | Some x => Dir (set_entry c (rm (c' :: p') x) es)
       | None => Dir es
       end).
    destruct (assoc c es) as [x|] eqn:Ec; [|now left].
    simpl. destruct (String.eqb_spec c b) as [->|Hne].
    + rewrite assoc_set_same. rewrite Ec in H. now apply IH.
    + left. apply String.eqb_neq in Hne. now rewrite assoc_set_other.
Qed.

Lemma lookup_put_parents_below (p q : path) (m n n' : node) :
  put_parents p m n = Some n' -> lookup (p ++ q) n' = lookup q m.
Proof.
  revert n n'. induction p as [|c p IH]; intros n n' H.
  - now injection H as <-.
  - destruct n as [r d|es]; [discriminate H|]. simpl in H.
    destruct (put_parents p m
                (match assoc c es with Some x => x | None => Dir [] end))
      as [x'|] eqn:Ex; [|discriminate H].
    injection H as <-. simpl. rewrite assoc_set_same. now apply (IH _ _ Ex).
Qed.

(** *** Reading a successful call backwards *)

Lemma mkdtemp_returns (tmp d : path) (w w' : world) :
  mkdtemp tmp w = (Ok d, w') ->
  d = tmp /\ lookup tmp (fs w) = None /\
  kind (parent tmp) (fs w) = Some true /\
  w' = World (put tmp (Dir []) (fs w)) (console w).
Proof.
  unfold mkdtemp. destruct (lookup tmp (fs w)); [discriminate|].
  destruct (kind (parent tmp) (fs w)) as [[|]|]; try discriminate.
  intros [= <- <-]. now repeat split.
Qed.

Lemma mkdir_returns (p : path) (w w' : world) u :
  mkdir p w = (Ok u, w') -> kind (parent p) (fs w) = Some true.
Proof.
  unfold mkdir. destruct (lookup p (fs w)); [discriminate|].
  now destruct (kind (parent p) (fs w)) as [[|]|].
Qed.

Lemma unlink_if_exists_returns (p : path) (w w' : world) u :
  p <> [] ->
  bind (exists_ p) (fun there => if there then unlink p else ret tt) w
  = (Ok u, w') ->
  lookup p (fs w') = None.
Proof.
  intros Hp. unfold bind, exists_, unlink, ret.
  destruct (lookup p (fs w)) as [[r d|es]|] eqn:E; rewrite ?E;
    try discriminate; intros [= _ <-]; [|exact E].
  cbn [fs set_fs]. now apply lookup_rm_same.
Qed.

Lemma make_archive_returns (b root : path) (name : string)
      (w w' : world) (z : path) :
  make_archive b root name w = (Ok z, w') ->
  exists n1 ms,
    fs w' = put (add_suffix b ".zip") (File true (Zip ms)) n1 /\
    kind (parent (add_suffix b ".zip")) n1 = Some true /\
    (forall q, q <> [] -> lookup (parent b ++ q) (fs w) = None ->
               lookup (parent b ++ q) n1 = None).
Proof.
  unfold make_archive.
  set (made := match lookup (parent b) (fs w) with
               | Some _ => Some (fs w)
               | None => put_parents (parent b) (Dir []) (fs w)
               end).
  assert (Hmade : forall n1, made = Some n1 ->
            forall q, q <> [] -> lookup (parent b ++ q) (fs w) = None ->
                      lookup (parent b ++ q) n1 = None).
  { intros n1 E q Hq Hnone. unfold made in E.
    destruct (lookup (parent b) (fs w)).
    - now injection E as <-.
    - rewrite (lookup_put_parents_below _ q _ _ _ E). now destruct q. }
  destruct made as [n1|]; [|discriminate].
  specialize (Hmade n1 eq_refl).
  destruct (kind (add_suffix b ".zip") n1) as [[|]|];
    destruct (kind (parent (add_suffix b ".zip")) n1) as [[|]|] eqn:Hpar;
    try discriminate;
    (destruct (lookup (joinpath root name) n1); [|discriminate];
     destruct (zip_write (parts name) _) as [ms [|]]; [|discriminate];
     intros [= _ <-]; eexists n1, _; cbn [fs set_fs]; now repeat split).
Qed.

Section Returns.

Variables script_dir tmp_name : path.

Lemma zip_path_nonempty (v : string) : zip_path script_dir v <> [].
Proof.
  unfold zip_path. rewrite joinpath_zip_name.
  pose proof (parts_suffix_nonempty v) as H.
  destruct (no_sep v) eqn:Hv.
  - rewrite parts_simple by now apply zip_file_simple.
    now destruct (output_dir script_dir).
  - destruct (parts_zip_name_sep v Hv) as (c & r & _ & ->).
    now destruct (output_dir script_dir).
Qed.

(** A build that returns has made the archive, at the path it returns,
    and was given a version that is a file name. *)
Lemma build_release_returns (v : string) (w w' : world) (p : path) :
  build_release script_dir tmp_name v w = (Ok p, w') ->
  no_sep v = true /\
  p = zip_path script_dir v /\
  exists ms, lookup p (fs w') = Some (File true (Zip ms)).
Proof.
  intros H. rewrite build_release_unfold in H.
  destruct (with_TemporaryDirectory _ _ _) as [[u|e] w1] eqn:Hwith;
    [|discriminate].
  cbv zeta in H.
  destruct (lookup (zip_path script_dir v) (fs w1)) as [st|] eqn:Hstat;
    [|discriminate].
  injection H as <- <-. cbn [fs].
  unfold with_TemporaryDirectory in Hwith.
  destruct (mkdtemp tmp_name _) as [[d|e] w_1] eqn:Hmk; [|discriminate].
  apply mkdtemp_returns in Hmk as (-> & Hfresh & Hpar & ->).
  cbn [fs console] in *.
  set (n1 := put tmp_name (Dir []) (fs w)) in *.
  destruct (staged_build script_dir v tmp_name _) as [r2 w2] eqn:Hbody.
  injection Hwith as -> <-. cbn [fs cleanup set_fs] in Hstat.
  rewrite staged_build_unfold in Hbody.
  change (joinpath tmp_name (zip_name v))
    with (tmp_name ++ parts (zip_name v)) in Hbody.
  change (joinpath (output_dir script_dir) (zip_name v))
    with (parent script_dir ++ parts (zip_name v)) in Hbody.
  unfold bind at 1 in Hbody.
  destruct (mkdir _ _) as [[[]|e] w_2] eqn:Hmkdir; [|discriminate].
  apply mkdir_returns in Hmkdir. cbn [fs] in Hmkdir.
  unfold bind at 1 in Hbody.
  destruct (for_each _ _ _) as [[[]|e] w_3] eqn:Hloop; [|discriminate].
  match type of Hbody with
  | bind ?c ?k ?w = _ =>
      change (bind c k w) with
        (bind (bind (exists_ (zip_path script_dir v))
                 (fun there => if there then unlink (zip_path script_dir v)
                               else ret tt))
              (fun _ => bind (make_archive
                                (parent script_dir ++ parts (zip_name v))
                                tmp_name (zip_name v)) (fun _ => ret tt)) w)
        in Hbody
  end.
  unfold bind at 1 in Hbody.
  destruct (bind (exists_ _) _ w_3) as [[[]|e] w_4] eqn:Hunl; [|discriminate].
  apply unlink_if_exists_returns in Hunl; [|apply zip_path_nonempty].
  unfold bind in Hbody.
  destruct (make_archive _ _ _ w_4) as [[z|e] w_5] eqn:Harch; [|discriminate].
  injection Hbody as _ <-.
  apply make_archive_returns in Harch as (n4 & ms & Hfs & Hpar4 & Hframe).
  rewrite Hfs in Hstat.
  destruct (no_sep v) eqn:Hv.
  - split; [reflexivity|]. split; [reflexivity|].
    rewrite (parts_simple _ (zip_name_simple v Hv)), add_suffix_last in *.
    rewrite (zip_path_eq script_dir v Hv) in *.
    exists ms.
    destruct (lookup_rm_file tmp_name
                (parent script_dir ++ [zip_name v +++ ".zip"])
                (put (parent script_dir ++ [zip_name v +++ ".zip"])
                     (File true (Zip ms)) n4) true (Zip ms)) as [E|E].
    + now apply lookup_put_same.
    + change (fs (cleanup tmp_name w_5)) with (rm tmp_name (fs w_5)).
      now rewrite Hfs.
    + rewrite E in Hstat. discriminate Hstat.
  - exfalso.
    destruct (parts_zip_name_sep v Hv) as (c & r & Ec & Ez).
    rewrite Ec in *.
    destruct (parts r) as [|x xs] eqn:Er.
    + rewrite add_suffix_last in *.
      unfold zip_path, output_dir in *. rewrite joinpath_zip_name, Ez in *.
      destruct (parts (r +++ ".zip")) as [|y ys] eqn:Ey;
        [now apply (parts_suffix_nonempty r)|].
      rewrite parent_last in Hframe.
      specialize (Hframe (c :: y :: ys) ltac:(discriminate) Hunl).
      rewrite lookup_rm_None in Hstat; [discriminate|].
      rewrite lookup_put_diverge; [exact Hframe|].
      rewrite diverge_common. cbn [diverge].
      destruct (String.eqb_spec (c +++ ".zip") c) as [E|]; [|reflexivity].
      now apply append_suffix_neq in E.
    + unfold parent in Hmkdir.
      rewrite removelast_app in Hmkdir by discriminate.
      change (removelast (c :: x :: xs)) with (c :: removelast (x :: xs))
        in Hmkdir.
      unfold kind in Hmkdir. unfold n1 in Hmkdir.
      rewrite lookup_put_below in Hmkdir by exact Hpar.
      discriminate Hmkdir.
Qed.

End Returns.

End ReturnFacts.
Import ReturnFacts.

(* ================================================================== *)
(** * More about a build: what it leaves alone *)

Module TouchFacts.


Lemma mkdir_frame (p q : path) (w w' : world) r :
  mkdir p w = (r, w') ->
  diverge p q = true -> lookup q (fs w') = lookup q (fs w).
Proof.
  unfold mkdir. intros H Hq.
  destruct (lookup p (fs w)); [now injection H as _ <-|].
  destruct (kind (parent p) (fs w)) as [[|]|]; injection H as _ <-;
    try reflexivity.
  cbn [fs set_fs]. now apply lookup_put_diverge.
Qed.



Section Touch.

Variables script_dir tmp_name : path.



End Touch.

End TouchFacts.
Import TouchFacts.


(* ================================================================== *)
(** * More about a build: where it stops *)

Module StopFacts.






Section Stop.

Variable script_dir : path.

(** The round of the loop on an item that cannot be read. *)
Lemma copy_item_unreadable (tp : path) (i : string) (x n : node) con staged :
  simple_name i = true ->
  lookup tp n = Some (Dir staged) ->
  assoc i staged = None ->
  lookup (script_dir ++ [i]) n = Some x ->
  all_readable x = false ->
  exists n',
    copy_item script_dir tp i (World n con) =
    (Raise (match x with
            | File _ _ => PermissionError
            | Dir _ => ShutilError
            end), World n' con).
Proof.
  intros Hi Htp Hfree Hsrc Hread.
  destruct (staging_slot_free tp i n staged Htp Hfree) as [Hdst Hpar].
  unfold copy_item. rewrite !joinpath_simple by exact Hi.
  unfold bind at 1. unfold exists_. cbn [fs]. rewrite Hsrc. cbn [negb].
  unfold bind at 1. unfold is_dir, kind. cbn [fs]. rewrite Hsrc.
  destruct x as [r d|es].
  - simpl in Hread. subst r. exists n.
    unfold bind, copy2. cbn [fs]. now rewrite Hsrc.
  - exists (put (tp ++ [i]) (copied (Dir es)) n).
    unfold bind, copytree. cbn [fs]. rewrite Hsrc, Hdst.
    rewrite (put_parents_put _ _ _ Hpar), Hread. reflexivity.
Qed.

End Stop.

End StopFacts.
Import StopFacts.

(* ================================================================== *)
(** * More about the archive: an exact copy *)

Module SnapshotFacts.





Lemma all_readable_entry (c : string) (m : node) (es : listing) :
  all_readable (Dir es) = true -> In (c, m) es -> all_readable m = true.
Proof.
  induction es as [|[k x] es IH]; intros Hr Hin; [destruct Hin|].
  rewrite all_readable_cons in Hr. apply andb_true_iff in Hr as [Hx Hes].
  destruct Hin as [[= -> ->]|Hin]; [exact Hx | now apply IH].
Qed.



Section Snapshot.

Variable script_dir : path.


End Snapshot.

End SnapshotFacts.
Import SnapshotFacts.

(* ================================================================== *)
(** * Runs that return: what they tell about the disk *)

Module ReturnedFacts.

Lemma mkdir_returned (p : path) (w w' : world) u :
  mkdir p w = (Ok u, w') ->
  lookup p (fs w) = None /\
  kind (parent p) (fs w) = Some true /\
  w' = World (put p (Dir []) (fs w)) (console w).
Proof.
  unfold mkdir. destruct (lookup p (fs w)); [discriminate|].
  destruct (kind (parent p) (fs w)) as [[|]|]; try discriminate.
  intros [= _ <-]. now repeat split.
Qed.

(** [unlink] went through, or was not called: no directory was there. *)
Lemma unlink_if_exists_returned (p : path) (w w' : world) u :
  bind (exists_ p) (fun there => if there then unlink p else ret tt) w
  = (Ok u, w') ->
  kind p (fs w) <> Some true.
Proof.
  unfold bind, exists_, unlink, ret, kind.
  destruct (lookup p (fs w)) as [[r d|es]|] eqn:E; rewrite ?E;
    try discriminate; intros _; discriminate.
Qed.

(** A directory at the path makes the statement raise and change
    nothing. *)
Lemma unlink_if_exists_directory (p : path) (w : world) (es : listing) :
  lookup p (fs w) = Some (Dir es) ->
  bind (exists_ p) (fun there => if there then unlink p else ret tt) w
  = (Raise IsADirectoryError, w).
Proof.
  intros H. unfold bind, exists_, unlink. rewrite H. now rewrite H.
Qed.

Lemma mkdtemp_frame (tmp q : path) (w w' : world) r :
  mkdtemp tmp w = (r, w') ->
  diverge tmp q = true -> lookup q (fs w') = lookup q (fs w).
Proof.
  unfold mkdtemp. intros H Hq.
  destruct (lookup tmp (fs w)); [now injection H as _ <-|].
  destruct (kind (parent tmp) (fs w)) as [[|]|]; injection H as _ <-;
    try reflexivity.
  cbn [fs set_fs]. now apply lookup_put_diverge.
Qed.

Section Returned.

Variables script_dir tmp_name : path.

Lemma readable_item_ext (n n' : node) (i : string) :
  lookup (script_dir ++ [i]) n' = lookup (script_dir ++ [i]) n ->
  readable_item script_dir n' i = readable_item script_dir n i.
Proof. intros H. unfold readable_item. now rewrite H. Qed.

(** The round of the loop on a missing item, and the loop after it. *)
Lemma copy_item_warns (tp : path) (i : string) (n : node) con :
  simple_name i = true ->
  lookup (script_dir ++ [i]) n = None ->
  copy_item script_dir tp i (World n con) =
  (Ok tt, World n (con ++ [Text ("[WARN] Missing: " +++ i)])).
Proof.
  intros Hi Hn. rewrite (copy_item_missing script_dir tp i n con Hi Hn).
  unfold copy_report. simpl. now rewrite Hn.
Qed.

(** A loop that returns has found each of its items missing or
    readable. *)
Lemma copy_items_returns (tp : path) (items : list string) :
  NoDup items ->
  Forall (fun i => simple_name i = true) items ->
  forall (n : node) con (staged : listing) (w' : world),
  lookup tp n = Some (Dir staged) ->
  (forall i, In i items -> assoc i staged = None) ->
  (forall i, In i items -> diverge tp (script_dir ++ [i]) = true) ->
  for_each items (copy_item script_dir tp) (World n con) = (Ok tt, w') ->
  forall i, In i items -> readable_item script_dir n i = true.
Proof.
  intros Hnd Hsimple. induction items as [|i items IH];
    intros n con staged w' Htp Hfree Hdiv Hrun j Hj; [destruct Hj|].
  inversion Hnd as [|? ? Hni Hnd']; subst.
  inversion Hsimple as [|? ? Hi Hsimple']; subst.
  assert (Hfree' : forall k, In k items -> assoc k staged = None)
    by (intros k Hk; apply Hfree; now right).
  assert (Hdiv' : forall k, In k items -> diverge tp (script_dir ++ [k]) = true)
    by (intros k Hk; apply Hdiv; now right).
  simpl for_each in Hrun. unfold bind at 1 in Hrun.
  destruct (lookup (script_dir ++ [i]) n) as [x|] eqn:Hsrc.
  - destruct (all_readable x) eqn:Hx.
    + rewrite (copy_item_present script_dir tp i x n con staged Hi Htp
                 (Hfree i (or_introl eq_refl)) Hsrc Hx) in Hrun.
      destruct (stage_put tp i x n staged Htp (Hfree i (or_introl eq_refl)))
        as (Htp1 & Hlk1 & _).
      destruct Hj as [<-|Hj]; [unfold readable_item; now rewrite Hsrc|].
      rewrite <- (readable_item_ext n (put (tp ++ [i]) x n) j)
        by (apply Hlk1; now apply Hdiv').
      refine (IH Hnd' Hsimple' _ _ (staged ++ [(i, x)]) w' Htp1 _ Hdiv'
                Hrun j Hj).
      intros k Hk. apply assoc_app_fresh; [now apply Hfree'|].
      apply String.eqb_neq. intros ->. contradiction.
    + destruct (copy_item_unreadable script_dir tp i x n con staged Hi Htp
                  (Hfree i (or_introl eq_refl)) Hsrc Hx) as (n' & Hstep).
      rewrite Hstep in Hrun. discriminate Hrun.
  - rewrite (copy_item_missing script_dir tp i n con Hi Hsrc) in Hrun.
    destruct Hj as [<-|Hj]; [unfold readable_item; now rewrite Hsrc|].
    apply (IH Hnd' Hsimple' n _ staged w' Htp Hfree' Hdiv' Hrun j Hj).
Qed.



(** A run that returns started from a disk that was fit for it. *)
Lemma returns_ready (v : string) (n : node) con (p : path) (w' : world) :
  placed script_dir tmp_name v n ->
  build_release script_dir tmp_name v (World n con) = (Ok p, w') ->
  ready script_dir tmp_name v n.
Proof.
  intros [Hsd Hsrc Hzp] Hrun.
  destruct (build_release_returns script_dir tmp_name v _ _ _ Hrun)
    as (Hv & _ & _).
  pose proof (zip_name_simple v Hv) as Hzn.
  rewrite build_release_unfold in Hrun. cbn [fs console] in Hrun.
  destruct (with_TemporaryDirectory _ _ _) as [[u|e] w1] eqn:Hwith;
    [|discriminate].
  clear Hrun. unfold with_TemporaryDirectory in Hwith.
  destruct (mkdtemp tmp_name _) as [[d|e] w_1] eqn:Hmk; [|discriminate].
  apply mkdtemp_returns in Hmk as (-> & Hfresh & Hpar & ->).
  cbn [fs console] in *.
  destruct (staged_build script_dir v tmp_name _) as [r2 w2] eqn:Hbody.
  injection Hwith as -> _.
  rewrite staged_build_unfold in Hbody.
  rewrite (joinpath_simple tmp_name _ Hzn) in Hbody.
  unfold bind at 1 in Hbody.
  destruct (mkdir _ _) as [[[]|e] w_2] eqn:Hmkdir; [|discriminate].
  apply mkdir_returned in Hmkdir as (Hfree & Hpar1 & ->).
  cbn [fs console] in *.
  set (n1 := put tmp_name (Dir []) n) in *.
  set (tp := tmp_name ++ [zip_name v]) in *.
  set (n2 := put tp (Dir []) n1) in *.
  unfold bind at 1 in Hbody.
  destruct (for_each _ _ _) as [[[]|e] w_3] eqn:Hloop; [|discriminate].
  match type of Hbody with
  | bind ?c ?k ?w = _ =>
      change (bind c k w) with
        (bind (bind (exists_ (zip_path script_dir v))
                 (fun there => if there then unlink (zip_path script_dir v)
                               else ret tt))
              (fun _ => bind (make_archive
                                (joinpath (output_dir script_dir) (zip_name v))
                                tmp_name (zip_name v)) (fun _ => ret tt)) w)
        in Hbody
  end.
  unfold bind at 1 in Hbody.
  destruct (bind (exists_ _) _ w_3) as [[[]|e] w_4] eqn:Hunl; [|discriminate].
  clear Hbody.
  apply unlink_if_exists_returned in Hunl.
  pose proof Hsrc as Hsrc0. rewrite forallb_forall in Hsrc.
  assert (Hlk2 : forall q, diverge tmp_name q = true ->
                           lookup q n2 = lookup q n).
  { intros q Hq. unfold n2, n1, tp.
    rewrite lookup_put_diverge by now apply diverge_app_l.
    now apply lookup_put_diverge. }
  constructor; auto.
  - (* nothing but a file where the archive goes *)
    unfold not_a_dir.
    destruct (kind (zip_path script_dir v) n) as [[|]|] eqn:Hk; try reflexivity.
    exfalso. apply Hunl. unfold kind in *.
    rewrite (copy_items_frame script_dir tp INCLUDE INCLUDE_simple _ _ _ Hloop)
      by (unfold tp; now apply diverge_app_l).
    cbn [fs]. now rewrite Hlk2.
  - (* the sources could be read *)
    apply forallb_forall. intros i Hi.
    rewrite <- (readable_item_ext n n2 i) by (apply Hlk2; now apply Hsrc).
    refine (copy_items_returns tp INCLUDE INCLUDE_NoDup INCLUDE_simple
              n2 _ [] w_3 _ _ _ Hloop i Hi).
    + unfold n2. now apply lookup_put_same.
    + reflexivity.
    + intros k Hk. unfold tp. apply diverge_app_l. now apply Hsrc.
Qed.

(** What a run that returns leaves behind. *)
Lemma build_release_returned (v : string) (n : node) con
      (p : path) (w' : world) :
  placed script_dir tmp_name v n ->
  build_release script_dir tmp_name v (World n con) = (Ok p, w') ->
  ready script_dir tmp_name v n /\
  p = zip_path script_dir v /\
  console w' = con ++ build_report script_dir v n /\
  lookup (zip_path script_dir v) (fs w') =
    Some (release_archive script_dir v n) /\
  lookup tmp_name (fs w') = None /\
  (forall q, diverge tmp_name q = true ->
             diverge (zip_path script_dir v) q = true ->
             lookup q (fs w') = lookup q n) /\
  (forall q, is_prefix tmp_name q = false ->
             is_prefix (zip_path script_dir v) q = false ->
             kind q (fs w') = kind q n).
Proof.
  intros Hplaced Hrun.
  pose proof (returns_ready v n con p w' Hplaced Hrun) as Hready.
  destruct (build_release_ok script_dir tmp_name v n con Hready)
    as (n' & Hrun' & Harch & Htmp & Hlk & Hkd).
  rewrite Hrun' in Hrun. injection Hrun as <- <-. cbn [fs console].
  split; [exact Hready|]. split; [reflexivity|]. split; [reflexivity|].
  split; [exact Harch|]. split; [exact Htmp|]. split; [exact Hlk | exact Hkd].
Qed.


(** With a directory where the archive goes the block under [with]
    raises, and leaves everything away from the temporary directory as it
    was. *)
Lemma staged_build_blocked (v : string) (w w' : world)
      (r : result unit) :
  kind (zip_path script_dir v) (fs w) = Some true ->
  diverge tmp_name (zip_path script_dir v) = true ->
  staged_build script_dir v tmp_name w = (r, w') ->
  (exists e, r = Raise e) /\
  forall q, diverge tmp_name q = true -> lookup q (fs w') = lookup q (fs w).
Proof.
  intros Hdir Hzp Hrun.
  apply kind_lookup_dir in Hdir as [es Hdir].
  rewrite staged_build_unfold in Hrun.
  change (joinpath tmp_name (zip_name v))
    with (tmp_name ++ parts (zip_name v)) in Hrun.
  assert (Htp : forall q, diverge tmp_name q = true ->
                          diverge (tmp_name ++ parts (zip_name v)) q = true)
    by (intros q Hq; now apply diverge_app_l).
  unfold bind at 1 in Hrun.
  destruct (mkdir _ w) as [[[]|e] w1] eqn:Hmk.
  2:{ injection Hrun as <- <-. split; [now exists e|].
      intros q Hq. apply (mkdir_frame _ _ _ _ _ Hmk). now apply Htp. }
  assert (H1 : forall q, diverge tmp_name q = true ->
                         lookup q (fs w1) = lookup q (fs w))
    by (intros q Hq; apply (mkdir_frame _ _ _ _ _ Hmk); now apply Htp).
  unfold bind at 1 in Hrun.
  destruct (for_each _ _ w1) as [[[]|e] w2] eqn:Hloop.
  2:{ injection Hrun as <- <-. split; [now exists e|].
      intros q Hq. rewrite <- (H1 q Hq).
      apply (copy_items_frame script_dir _ INCLUDE INCLUDE_simple
               _ _ _ Hloop). now apply Htp. }
  assert (H2 : forall q, diverge tmp_name q = true ->
                         lookup q (fs w2) = lookup q (fs w)).
  { intros q Hq. rewrite <- (H1 q Hq).
    apply (copy_items_frame script_dir _ INCLUDE INCLUDE_simple
             _ _ _ Hloop). now apply Htp. }
  match type of Hrun with
  | bind ?c ?k ?w = _ =>
      change (bind c k w) with
        (bind (bind (exists_ (zip_path script_dir v))
                 (fun there => if there then unlink (zip_path script_dir v)
                               else ret tt))
              (fun _ => bind (make_archive
                                (joinpath (output_dir script_dir) (zip_name v))
                                tmp_name (zip_name v)) (fun _ => ret tt)) w)
        in Hrun
  end.
  unfold bind at 1 in Hrun.
  rewrite (unlink_if_exists_directory _ w2 es) in Hrun
    by (rewrite H2 by exact Hzp; exact Hdir).
  injection Hrun as <- <-. split; [now eexists|]. exact H2.
Qed.

(** The whole run likewise. *)
Lemma build_release_blocked (v : string) (w w' : world)
      (r : result path) :
  kind (zip_path script_dir v) (fs w) = Some true ->
  diverge tmp_name (zip_path script_dir v) = true ->
  build_release script_dir tmp_name v w = (r, w') ->
  (exists e, r = Raise e) /\
  forall q, diverge tmp_name q = true -> lookup q (fs w') = lookup q (fs w).
Proof.
  intros Hdir Hzp Hrun.
  rewrite build_release_unfold in Hrun.
  destruct (with_TemporaryDirectory _ _ _) as [r1 w1] eqn:Hwith.
  assert (Hblock : (exists e, r1 = Raise e) /\
            forall q, diverge tmp_name q = true ->
                      lookup q (fs w1) = lookup q (fs w)).
  { unfold with_TemporaryDirectory in Hwith.
    destruct (mkdtemp tmp_name _) as [[d|e] w_1] eqn:Hmk.
    - pose proof (fun q => mkdtemp_frame tmp_name q _ _ _ Hmk) as Hf.
      cbn [fs] in Hf.
      apply mkdtemp_returns in Hmk as (-> & _ & _ & Ew).
      destruct (staged_build script_dir v tmp_name w_1) as [r2 w2] eqn:Hbody.
      injection Hwith as <- <-.
      destruct (staged_build_blocked v w_1 w2 r2) as [He Hlk]; auto.
      { unfold kind in *. now rewrite Hf. }
      split; [exact He|]. intros q Hq.
      unfold cleanup, set_fs. cbn [fs].
      rewrite lookup_rm_diverge by exact Hq.
      rewrite Hlk by exact Hq. now apply Hf.
    - injection Hwith as <- <-. split; [now exists e|].
      intros q Hq. apply (mkdtemp_frame tmp_name q _ _ _ Hmk Hq). }
  destruct Hblock as [[e ->] Hlk].
  injection Hrun as <- <-. split; [now exists e | exact Hlk].
Qed.

End Returned.

Section MainRuns.

Variables script_dir tmp_name : path.
Variable json_load : fdata -> result pyval.
Variable py_str : pyval -> string.

(** [main] that returns has built the version it settled on. *)
Lemma main_returns (argv : list string) (w w' : world) u :
  main script_dir tmp_name json_load py_str argv w = (Ok u, w') ->
  exists v w1 p,
    main_version script_dir json_load py_str argv w = (Ok v, w1) /\
    build_release script_dir tmp_name v w1 = (Ok p, w').
Proof.
  unfold main. unfold bind at 1.
  destruct (main_version _ _ _ argv w) as [[v|e] w1]; [|discriminate].
  unfold bind, ret.
  destruct (build_release script_dir tmp_name v w1) as [[p|e] w2] eqn:Hb;
    [|discriminate].
  intros [= _ <-]. now exists v, w1, p.
Qed.

End MainRuns.

End ReturnedFacts.
Import ReturnedFacts.

(* ================================================================== *)
(** * The script at work *)

Module Scenarios.

Import Sample.

(** A project with [README.md] and without [code]: the archive holds the
    top directory and [README.md], and [code] is reported missing. *)
Example readme_only :
  build_release "1.1.1" (boot bare_disk) =
  (Ok ["home"; "dev"; "PulsoidWidget-to-OSC-v1.1.1.zip"],
   World
     (disk (Dir [ ("build.py", File true (Raw "#!/usr/bin/env python3"));
                  ("README.md", File true (Raw "# Pulsoid widget to OSC")) ])
           [ ("PulsoidWidget-to-OSC-v1.1.1.zip",
              File true
                (Zip [ (["PulsoidWidget-to-OSC-v1.1.1"], None);
                       (["PulsoidWidget-to-OSC-v1.1.1"; "README.md"],
                        Some (Raw "# Pulsoid widget to OSC")) ])) ])
     [ Text "[BUILD] Creating release v1.1.1";
       Text "[BUILD] Output: /home/dev/PulsoidWidget-to-OSC-v1.1.1.zip";
       Text "[WARN] Missing: code";
       Text "[WARN] Missing: LICENSE";
       Text "[OK] Copied file: README.md";
       Text "[WARN] Missing: OSC_CONFIG_README.md";
       Text "[WARN] Missing: osc_parameters.json";
       Text "[WARN] Missing: package.json";
       Text "[WARN] Missing: package-lock.json";
       Text "[WARN] Missing: pulsoid_widget_osc.vrmanifest";
       Text "[WARN] Missing: run.bat";
       Text "[WARN] Missing: widget_id.txt.template";
       Text "[BUILD] Done! Created: /home/dev/PulsoidWidget-to-OSC-v1.1.1.zip";
       SizeKB
         (File true
            (Zip [ (["PulsoidWidget-to-OSC-v1.1.1"], None);
                   (["PulsoidWidget-to-OSC-v1.1.1"; "README.md"],
                    Some (Raw "# Pulsoid widget to OSC")) ])) ]).
Proof. reflexivity. Qed.

(** No argument, [package.json] says 2.0.0: the archive is named after
    2.0.0. *)
Example version_from_package :
  fst (main ["build.py"] (boot fresh_disk)) = Ok tt /\
  kind ["home"; "dev"; "PulsoidWidget-to-OSC-v2.0.0.zip"]
       (fs (snd (main ["build.py"] (boot fresh_disk)))) = Some false.
Proof. split; reflexivity. Qed.

(** An argument beside a [package.json] that says 2.0.0: the archive is
    named after the argument. *)
Example version_from_argument :
  fst (main ["build.py"; "9.9.9"] (boot fresh_disk)) = Ok tt /\
  kind ["home"; "dev"; "PulsoidWidget-to-OSC-v9.9.9.zip"]
       (fs (snd (main ["build.py"; "9.9.9"] (boot fresh_disk)))) = Some false /\
  kind ["home"; "dev"; "PulsoidWidget-to-OSC-v2.0.0.zip"]
       (fs (snd (main ["build.py"; "9.9.9"] (boot fresh_disk)))) = None.
Proof. repeat split; reflexivity. Qed.

(** A version with a separator in it is no file name.  With one in the
    middle the staging directory cannot be made; with one at the end the
    archive is written but not where the size report looks for it. *)
Example version_with_separator :
  fst (build_release "1/1" (boot fresh_disk)) = Raise FileNotFoundError /\
  fs (snd (build_release "1/1" (boot fresh_disk))) = fresh_disk /\
  fst (build_release "1/" (boot fresh_disk)) = Raise FileNotFoundError /\
  kind ["home"; "dev"; "PulsoidWidget-to-OSC-v1.zip"]
       (fs (snd (build_release "1/" (boot fresh_disk)))) = Some false.
Proof. repeat split; reflexivity. Qed.

(** A directory where the archive goes stops the build after the copy. *)
Example directory_in_the_way :
  fst (build_release "1.1.1"
         (boot (disk (project package_text true)
                     [ ("PulsoidWidget-to-OSC-v1.1.1.zip", Dir []) ])))
  = Raise IsADirectoryError.
Proof. reflexivity. Qed.

End Scenarios.

(* ================================================================== *)
(** * The properties of the release packager *)

Section Claims.

Variables script_dir tmp_name : path.
Variable json_load : fdata -> result pyval.
Variable py_str : pyval -> string.



(** C3.  A listed item that is not on disk is skipped with a warning and
    stops nothing: the round of the loop prints the warning, changes
    nothing and returns; the loop goes on with the items after it; and
    in a build that returns the warning is on the console and no member
    of the archive lies at or under the item's name. *)
Theorem C3_missing_item_skipped (v : string) (i : string) :
  In i INCLUDE ->
  (forall (tp : path) (m : node) c,
      lookup (script_dir ++ [i]) m = None ->
      copy_item script_dir tp i (World m c) =
      (Ok tt, World m (c ++ [Text ("[WARN] Missing: " +++ i)]))) /\
  (forall (tp : path) (rest : list string) (m : node) c,
      lookup (script_dir ++ [i]) m = None ->
      for_each (i :: rest) (copy_item script_dir tp) (World m c) =
      for_each rest (copy_item script_dir tp)
        (World m (c ++ [Text ("[WARN] Missing: " +++ i)]))) /\
  (forall (n : node) con (p : path) (w' : world),
      placed script_dir tmp_name v n ->
      lookup (script_dir ++ [i]) n = None ->
      build_release script_dir tmp_name v (World n con) = (Ok p, w') ->
      In (Text ("[WARN] Missing: " +++ i)) (console w') /\
      exists ms,
        lookup p (fs w') = Some (File true (Zip ms)) /\
        forall a x, In (a, x) ms -> is_prefix [zip_name v; i] a = false).
Proof.
  intros Hi.
  assert (Hsimple : simple_name i = true).
  { pose proof INCLUDE_simple as H. rewrite Forall_forall in H. now apply H. }
  split; [|split].
  - intros tp m c Hm. now apply copy_item_warns.
  - intros tp rest m c Hm. cbn [for_each]. unfold bind.
    now rewrite (copy_item_warns script_dir tp i m c Hsimple Hm).
  - intros n con p w' Hplaced Hmiss Hrun.
    destruct (build_release_returned script_dir tmp_name v n con p w'
                Hplaced Hrun) as (Hready & -> & Hcon & Harch & _).
    split.
    + rewrite Hcon. apply in_or_app. right.
      unfold build_report. apply in_or_app. right. apply in_or_app. left.
      unfold copy_report. apply in_map_iff. exists i. now rewrite Hmiss.
    + exists (release_members script_dir v n). split; [exact Harch|].
      intros a x. now apply release_members_missing.
Qed.

(** C4.  However a build ends - with a value or with an exception - the
    temporary directory it was given and everything below it are not on
    disk afterwards. *)
Theorem C4_staging_removed (v : string) (n : node) con
        (r : result path) (w' : world) :
  lookup tmp_name n = None ->
  build_release script_dir tmp_name v (World n con) = (r, w') ->
  forall q, lookup (tmp_name ++ q) (fs w') = None.
Proof.
  intros Hfresh Hrun q.
  destruct (build_release_fs script_dir tmp_name v _ _ _ Hrun)
    as (r1 & w1 & Hwith & ->).
  cbn [fs console] in Hwith.
  apply (with_TemporaryDirectory_gone tmp_name _ _ _ _ r1) with (2 := Hwith).
  exact Hfresh.
Qed.

(** C5.  With a version argument on the command line, the version is
    that argument on every disk: [main_version] returns it without
    touching or reading anything, [main] is the build of that version,
    and any two such builds that return, return the same path. *)
Theorem C5_argument_used_verbatim (argv : list string) (v : string)
        (w1 w2 : world) :
  nth_error argv 1 = Some v ->
  main_version script_dir json_load py_str argv w1 = (Ok v, w1) /\
  main_version script_dir json_load py_str argv w2 = (Ok v, w2) /\
  main script_dir tmp_name json_load py_str argv w1 =
    bind (build_release script_dir tmp_name v) (fun _ => ret tt) w1 /\
  main script_dir tmp_name json_load py_str argv w2 =
    bind (build_release script_dir tmp_name v) (fun _ => ret tt) w2 /\
  forall p1 p2 w1' w2',
    build_release script_dir tmp_name v w1 = (Ok p1, w1') ->
    build_release script_dir tmp_name v w2 = (Ok p2, w2') ->
    p1 = p2 /\
    p1 = parent script_dir ++ ["PulsoidWidget-to-OSC-v" +++ v +++ ".zip"].
Proof.
  intros Hv.
  assert (Hmv : forall w,
             main_version script_dir json_load py_str argv w = (Ok v, w)).
  { intros w. unfold main_version.
    destruct argv as [|a [|b l]]; try discriminate Hv.
    injection Hv as ->. reflexivity. }
  assert (Hmain : forall w,
             main script_dir tmp_name json_load py_str argv w =
             bind (build_release script_dir tmp_name v) (fun _ => ret tt) w).
  { intros w. unfold main. unfold bind at 1. now rewrite Hmv. }
  split; [apply Hmv|]. split; [apply Hmv|].
  split; [apply Hmain|]. split; [apply Hmain|].
  intros p1 p2 w1' w2' Hrun1 Hrun2.
  destruct (build_release_returns _ _ _ _ _ _ Hrun1) as (Hs & -> & _).
  destruct (build_release_returns _ _ _ _ _ _ Hrun2) as (_ & -> & _).
  split; [reflexivity|]. now rewrite zip_path_eq.
Qed.

(** C6.  Without a version argument, the version is the ["version"] entry
    of the document in [package.json] beside the script, and ["0.0.0"]
    when the document has no such entry. *)
Theorem C6_version_from_package (argv : list string) (n : node) con
        (content : fdata) (items : list (string * pyval)) :
  List.length argv <= 1 ->
  (forall s, py_str (PStr s) = s) ->
  lookup (script_dir ++ ["package.json"]) n = Some (File true content) ->
  json_load content = Ok (PDict items) ->
  get_version_from_package script_dir json_load (World n con) =
    (Ok (match assoc "version" items with
         | Some x => x
         | None => PStr "0.0.0"
         end), World n con) /\
  (forall s, assoc "version" items = Some (PStr s) ->
     main_version script_dir json_load py_str argv (World n con) =
     (Ok s,
      World n (con ++ [Text ("[INFO] No version specified, using package.json: v"
                               +++ s)]))) /\
  (assoc "version" items = None ->
     main_version script_dir json_load py_str argv (World n con) =
     (Ok "0.0.0",
      World n (con ++ [Text ("[INFO] No version specified, using package.json: v"
                               +++ "0.0.0")]))).
Proof.
  intros Hargv Hstr Hfile Hjson.
  assert (Hget : get_version_from_package script_dir json_load (World n con) =
                 (Ok (match assoc "version" items with
                      | Some x => x
                      | None => PStr "0.0.0"
                      end), World n con)).
  { unfold get_version_from_package.
    change (joinpath script_dir "package.json")
      with (script_dir ++ ["package.json"]).
    cbn [fs]. rewrite Hfile. cbn [negb]. rewrite Hjson.
    now destruct (assoc "version" items). }
  assert (Hlt : Nat.ltb 1 (List.length argv) = false)
    by (apply Nat.ltb_ge; exact Hargv).
  split; [exact Hget|]. split.
  - intros s Hs. unfold main_version. rewrite Hlt.
    unfold bind. rewrite Hget, Hs, Hstr. reflexivity.
  - intros Hs. unfold main_version. rewrite Hlt.
    unfold bind. rewrite Hget, Hs, Hstr. reflexivity.
Qed.


(** C8, as amended.  Without a version argument, a missing
    [package.json] makes the version look-up raise [FileNotFoundError],
    and one that cannot be decoded makes it raise the decoder's error;
    the error leaves [main] before anything is built. *)
Theorem C8_package_errors_propagate (argv : list string) (n : node) con :
  List.length argv <= 1 ->
  (lookup (script_dir ++ ["package.json"]) n = None ->
     main_version script_dir json_load py_str argv (World n con) =
       (Raise FileNotFoundError, World n con) /\
     main script_dir tmp_name json_load py_str argv (World n con) =
       (Raise FileNotFoundError, World n con)) /\
  (forall content e,
     lookup (script_dir ++ ["package.json"]) n = Some (File true content) ->
     json_load content = Raise e ->
     main_version script_dir json_load py_str argv (World n con) =
       (Raise e, World n con) /\
     main script_dir tmp_name json_load py_str argv (World n con) =
       (Raise e, World n con)).
Proof.
  intros Hargv.
  assert (Hlt : Nat.ltb 1 (List.length argv) = false)
    by (apply Nat.ltb_ge; exact Hargv).
  split.
  - intros Hnone.
    assert (Hget : get_version_from_package script_dir json_load (World n con)
                   = (Raise FileNotFoundError, World n con)).
    { unfold get_version_from_package.
      change (joinpath script_dir "package.json")
        with (script_dir ++ ["package.json"]).
      cbn [fs]. now rewrite Hnone. }
    assert (Hmv : main_version script_dir json_load py_str argv (World n con)
                  = (Raise FileNotFoundError, World n con))
      by (unfold main_version; rewrite Hlt; unfold bind; now rewrite Hget).
    split; [exact Hmv|]. unfold main, bind. now rewrite Hmv.
  - intros content e Hfile Hjson.
    assert (Hget : get_version_from_package script_dir json_load (World n con)
                   = (Raise e, World n con)).
    { unfold get_version_from_package.
      change (joinpath script_dir "package.json")
        with (script_dir ++ ["package.json"]).
      cbn [fs]. rewrite Hfile. cbn [negb]. now rewrite Hjson. }
    assert (Hmv : main_version script_dir json_load py_str argv (World n con)
                  = (Raise e, World n con))
      by (unfold main_version; rewrite Hlt; unfold bind; now rewrite Hget).
    split; [exact Hmv|]. unfold main, bind. now rewrite Hmv.
Qed.


(** C10.  When the run gets to the copy loop and the loop raises, the
    build raises the same exception and a file that was at the archive's
    path before the run is still there, as it was. *)
Theorem C10_failed_copy_keeps_archive (v : string) (n : node) con
        (r : bool) (old : fdata) (w1 w2 w3 : world) (e : exn) :
  lookup (zip_path script_dir v) n = Some (File r old) ->
  mkdtemp tmp_name
    (World n ((con ++ [Text ("[BUILD] Creating release v" +++ v)])
                ++ [Text ("[BUILD] Output: "
                            +++ render (zip_path script_dir v))]))
    = (Ok tmp_name, w1) ->
  mkdir (joinpath tmp_name (zip_name v)) w1 = (Ok tt, w2) ->
  for_each INCLUDE (copy_item script_dir (joinpath tmp_name (zip_name v))) w2
    = (Raise e, w3) ->
  build_release script_dir tmp_name v (World n con) =
    (Raise e, cleanup tmp_name w3) /\
  lookup (zip_path script_dir v) (fs (cleanup tmp_name w3)) =
    Some (File r old).
Proof.
  intros Hold Hmk Hmkdir Hloop.
  split.
  - rewrite build_release_unfold. cbn [fs console].
    unfold with_TemporaryDirectory. rewrite Hmk.
    rewrite staged_build_unfold. unfold bind at 1. rewrite Hmkdir.
    unfold bind at 1. rewrite Hloop. reflexivity.
  - apply mkdtemp_returns in Hmk as (_ & Hfresh & Hpar & ->).
    cbn [fs] in Hfresh, Hpar.
    pose proof (fresh_dir_diverges_file tmp_name _ n r old Hfresh Hpar Hold)
      as Hdiv.
    assert (Hdiv' : diverge (joinpath tmp_name (zip_name v))
                            (zip_path script_dir v) = true)
      by (change (joinpath tmp_name (zip_name v))
            with (tmp_name ++ parts (zip_name v));
          now apply diverge_app_l).
    unfold cleanup, set_fs. cbn [fs].
    rewrite lookup_rm_diverge by exact Hdiv.
    rewrite (copy_items_frame script_dir _ INCLUDE INCLUDE_simple
               _ _ _ Hloop _ Hdiv').
    unfold mkdir in Hmkdir. cbn [fs] in Hmkdir.
    destruct (lookup (joinpath tmp_name (zip_name v)) _); [discriminate|].
    destruct (kind (parent (joinpath tmp_name (zip_name v))) _) as [[|]|];
      try discriminate.
    injection Hmkdir as <-. cbn [fs set_fs].
    rewrite lookup_put_diverge by exact Hdiv'.
    now rewrite lookup_put_diverge by exact Hdiv.
Qed.

End Claims.

(* ================================================================== *)
(** * The properties at work on the sample disks *)



Lemma C3_missing_item_skipped_witness :
  placed Sample.script_dir Sample.tmp_name "1.1.1" Sample.fresh_disk /\
  In "run.bat" INCLUDE /\
  lookup (Sample.script_dir ++ ["run.bat"]) Sample.fresh_disk = None /\
  In (Text ("[WARN] Missing: " +++ "run.bat"))
     (console (snd (Sample.build_release "1.1.1"
                      (Sample.boot Sample.fresh_disk)))) /\
  exists ms,
    lookup ["home"; "dev"; "PulsoidWidget-to-OSC-v1.1.1.zip"]
      (fs (snd (Sample.build_release "1.1.1" (Sample.boot Sample.fresh_disk))))
    = Some (File true (Zip ms)) /\
    forall a x, In (a, x) ms ->
                is_prefix [zip_name "1.1.1"; "run.bat"] a = false.
Proof.
  assert (Hplaced : placed Sample.script_dir Sample.tmp_name "1.1.1"
                      Sample.fresh_disk) by (constructor; reflexivity).
  assert (Hin : In "run.bat" INCLUDE) by (simpl; tauto).
  split; [exact Hplaced|]. split; [exact Hin|]. split; [reflexivity|].
  apply (proj2 (proj2 (C3_missing_item_skipped Sample.script_dir
                         Sample.tmp_name "1.1.1" "run.bat" Hin))
           Sample.fresh_disk []
           ["home"; "dev"; "PulsoidWidget-to-OSC-v1.1.1.zip"]
           (snd (Sample.build_release "1.1.1" (Sample.boot Sample.fresh_disk)))
           Hplaced eq_refl eq_refl).
Defined.

Lemma C4_staging_removed_witness :
  lookup Sample.tmp_name Sample.locked_disk = None /\
  fst (Sample.build_release "1.1.1" (Sample.boot Sample.locked_disk))
    = Raise PermissionError /\
  (forall q,
      lookup (Sample.tmp_name ++ q)
        (fs (snd (Sample.build_release "1.1.1"
                    (Sample.boot Sample.locked_disk)))) = None) /\
  fst (Sample.build_release "1.1.1" (Sample.boot Sample.fresh_disk))
    = Ok ["home"; "dev"; "PulsoidWidget-to-OSC-v1.1.1.zip"] /\
  (forall q,
      lookup (Sample.tmp_name ++ q)
        (fs (snd (Sample.build_release "1.1.1"
                    (Sample.boot Sample.fresh_disk)))) = None).
Proof.
  split; [reflexivity|]. split; [reflexivity|]. split; [|split].
  - apply (C4_staging_removed Sample.script_dir Sample.tmp_name "1.1.1"
             Sample.locked_disk []
             (fst (Sample.build_release "1.1.1"
                     (Sample.boot Sample.locked_disk)))
             (snd (Sample.build_release "1.1.1"
                     (Sample.boot Sample.locked_disk))));
      reflexivity.
  - reflexivity.
  - apply (C4_staging_removed Sample.script_dir Sample.tmp_name "1.1.1"
             Sample.fresh_disk []
             (fst (Sample.build_release "1.1.1"
                     (Sample.boot Sample.fresh_disk)))
             (snd (Sample.build_release "1.1.1"
                     (Sample.boot Sample.fresh_disk))));
      reflexivity.
Defined.

Lemma C5_argument_used_verbatim_witness :
  nth_error ["build.py"; "9.9.9"] 1 = Some "9.9.9" /\
  Sample.main_version ["build.py"; "9.9.9"] (Sample.boot Sample.fresh_disk)
    = (Ok "9.9.9", Sample.boot Sample.fresh_disk) /\
  Sample.main_version ["build.py"; "9.9.9"] (Sample.boot Sample.bare_disk)
    = (Ok "9.9.9", Sample.boot Sample.bare_disk) /\
  Sample.main ["build.py"; "9.9.9"] (Sample.boot Sample.fresh_disk) =
    bind (Sample.build_release "9.9.9") (fun _ => ret tt)
         (Sample.boot Sample.fresh_disk) /\
  Sample.main ["build.py"; "9.9.9"] (Sample.boot Sample.bare_disk) =
    bind (Sample.build_release "9.9.9") (fun _ => ret tt)
         (Sample.boot Sample.bare_disk) /\
  forall p1 p2 w1' w2',
    Sample.build_release "9.9.9" (Sample.boot Sample.fresh_disk) = (Ok p1, w1') ->
    Sample.build_release "9.9.9" (Sample.boot Sample.bare_disk) = (Ok p2, w2') ->
    p1 = p2 /\
    p1 = parent Sample.script_dir
           ++ ["PulsoidWidget-to-OSC-v" +++ "9.9.9" +++ ".zip"].
Proof.
  split; [reflexivity|].
  apply (C5_argument_used_verbatim Sample.script_dir Sample.tmp_name
           Sample.json_load Sample.py_str ["build.py"; "9.9.9"] "9.9.9"
           (Sample.boot Sample.fresh_disk) (Sample.boot Sample.bare_disk)).
  reflexivity.
Defined.

Lemma C6_version_from_package_witness :
  (List.length ["build.py"] <= 1 /\
   (forall s, Sample.py_str (PStr s) = s) /\
   Sample.main_version ["build.py"] (Sample.boot Sample.fresh_disk) =
   (Ok "2.0.0",
    World Sample.fresh_disk
      ([] ++ [Text ("[INFO] No version specified, using package.json: v"
                      +++ "2.0.0")]))) /\
  Sample.main_version ["build.py"] (Sample.boot Sample.unversioned_disk) =
  (Ok "0.0.0",
   World Sample.unversioned_disk
     ([] ++ [Text ("[INFO] No version specified, using package.json: v"
                     +++ "0.0.0")])).
Proof.
  assert (Hargv : List.length ["build.py"] <= 1) by (simpl; lia).
  assert (Hstr : forall s, Sample.py_str (PStr s) = s)
    by (intros s; reflexivity).
  split; [split; [exact Hargv | split; [exact Hstr|]]|].
  - apply (proj1 (proj2 (C6_version_from_package Sample.script_dir
                           Sample.json_load Sample.py_str ["build.py"]
                           Sample.fresh_disk [] (Raw Sample.package_text)
                           [("version", PStr "2.0.0")]
                           Hargv Hstr eq_refl eq_refl))).
    reflexivity.
  - apply (proj2 (proj2 (C6_version_from_package Sample.script_dir
                           Sample.json_load Sample.py_str ["build.py"]
                           Sample.unversioned_disk []
                           (Raw Sample.unversioned_text)
                           [("name", PStr "widget")]
                           Hargv Hstr eq_refl eq_refl))).
    reflexivity.
Defined.


(** C8 as stated fails: without an argument and without [package.json]
    the version look-up raises, and so it does on a [package.json] that
    is cut short. *)
Lemma C8_counterexample :
  Sample.main_version ["build.py"] (Sample.boot Sample.bare_disk)
    = (Raise FileNotFoundError, Sample.boot Sample.bare_disk) /\
  Sample.main_version ["build.py"] (Sample.boot Sample.broken_disk)
    = (Raise JSONDecodeError, Sample.boot Sample.broken_disk) /\
  ~ (exists v w,
        Sample.main_version ["build.py"] (Sample.boot Sample.bare_disk)
        = (Ok v, w)).
Proof.
  split; [reflexivity|]. split; [reflexivity|].
  intros (v & w & H). discriminate H.
Qed.

Lemma C8_package_errors_propagate_witness :
  List.length ["build.py"] <= 1 /\
  lookup (Sample.script_dir ++ ["package.json"]) Sample.bare_disk = None /\
  Sample.main_version ["build.py"] (Sample.boot Sample.bare_disk) =
    (Raise FileNotFoundError, Sample.boot Sample.bare_disk) /\
  Sample.main ["build.py"] (Sample.boot Sample.bare_disk) =
    (Raise FileNotFoundError, Sample.boot Sample.bare_disk).
Proof.
  assert (Hargv : List.length ["build.py"] <= 1) by (simpl; lia).
  split; [exact Hargv|]. split; [reflexivity|].
  apply (proj1 (C8_package_errors_propagate Sample.script_dir Sample.tmp_name
                  Sample.json_load Sample.py_str ["build.py"]
                  Sample.bare_disk [] Hargv)).
  reflexivity.
Defined.


Lemma C10_failed_copy_keeps_archive_witness :
  lookup (zip_path Sample.script_dir "1.1.1") Sample.locked_disk
    = Some Sample.old_archive /\
  Sample.build_release "1.1.1" (Sample.boot Sample.locked_disk) =
    (Raise PermissionError,
     World Sample.locked_disk
       [Text "[BUILD] Creating release v1.1.1";
        Text "[BUILD] Output: /home/dev/PulsoidWidget-to-OSC-v1.1.1.zip";
        Text "[OK] Copied directory: code"]) /\
  lookup (zip_path Sample.script_dir "1.1.1")
    (fs (snd (Sample.build_release "1.1.1" (Sample.boot Sample.locked_disk))))
    = Some Sample.old_archive.
Proof.
  pose (w0 := World Sample.locked_disk
                (([] ++ [Text ("[BUILD] Creating release v" +++ "1.1.1")])
                   ++ [Text ("[BUILD] Output: "
                               +++ render (zip_path Sample.script_dir "1.1.1"))])).
  pose (w1 := snd (mkdtemp Sample.tmp_name w0)).
  pose (w2 := snd (mkdir (joinpath Sample.tmp_name (zip_name "1.1.1")) w1)).
  pose (w3 := snd (for_each INCLUDE
                     (copy_item Sample.script_dir
                        (joinpath Sample.tmp_name (zip_name "1.1.1"))) w2)).
  destruct (C10_failed_copy_keeps_archive Sample.script_dir Sample.tmp_name
              "1.1.1" Sample.locked_disk [] true _ w1 w2 w3 PermissionError
              eq_refl eq_refl eq_refl eq_refl) as [Hrun Hkept].
  split; [reflexivity|]. unfold Sample.build_release, Sample.boot. split.
  - rewrite Hrun. reflexivity.
  - rewrite Hrun. exact Hkept.
Defined.

(* ================================================================== *)
(** * Further properties of the release packager *)

Section More.

Variables script_dir tmp_name : path.
Variable json_load : fdata -> result pyval.
Variable py_str : pyval -> string.


(** X2.  The archive of a build that returns holds nothing but the
    listed items: a member is the top directory or lies at or under a
    listed item that was on disk, and no member lies at or under a name
    that is not listed. *)
Theorem X2_archive_holds_listed_items_only (v : string) (n : node) con
        (p : path) (w' : world) :
  placed script_dir tmp_name v n ->
  build_release script_dir tmp_name v (World n con) = (Ok p, w') ->
  exists ms,
    lookup p (fs w') = Some (File true (Zip ms)) /\
    (forall a x, In (a, x) ms ->
       a = [zip_name v] \/
       exists i m, In i INCLUDE /\
                   lookup (script_dir ++ [i]) n = Some m /\
                   is_prefix [zip_name v; i] a = true) /\
    (forall c a x, ~ In c INCLUDE -> In (a, x) ms ->
       is_prefix [zip_name v; c] a = false).
Proof.
  intros Hplaced Hrun.
  destruct (build_release_returned script_dir tmp_name v n con p w'
              Hplaced Hrun) as (_ & -> & _ & Harch & _).
  exists (release_members script_dir v n). split; [exact Harch|].
  assert (Hmem : forall a x, In (a, x) (release_members script_dir v n) ->
            a = [zip_name v] \/
            exists i m, In i INCLUDE /\
                        lookup (script_dir ++ [i]) n = Some m /\
                        is_prefix [zip_name v; i] a = true).
  { intros a x Hin. unfold release_members in Hin.
    apply zip_write_dir_names in Hin as [->|(c & m & Hc & Hp)]; [now left|].
    right. apply staged_entries_In in Hc as [Hc Hm]. now exists c, m. }
  split; [exact Hmem|].
  intros c a x Hc Hin. destruct (Hmem a x Hin) as [->|(i & m & Hi & _ & Hp)].
  - simpl. now rewrite String.eqb_refl.
  - apply (is_prefix_other_entry [zip_name v] i c a Hp). intros ->.
    contradiction.
Qed.


(** X4.  Without an argument, a [main] that returns has built the
    version the package names - 0.0.0 when the document has no version:
    the notice is on the console, the archive named after that version
    is on disk, and [package.json] itself is one of its members. *)
Theorem X4_main_builds_package_version
        (argv : list string) (n : node) con
        (content : fdata) (items : list (string * pyval))
        (u : unit) (w' : world) :
  List.length argv <= 1 ->
  lookup (script_dir ++ ["package.json"]) n = Some (File true content) ->
  json_load content = Ok (PDict items) ->
  let version :=
    py_str (match assoc "version" items with
            | Some x => x
            | None => PStr "0.0.0"
            end) in
  placed script_dir tmp_name version n ->
  main script_dir tmp_name json_load py_str argv (World n con) = (Ok u, w') ->
  In (Text ("[INFO] No version specified, using package.json: v" +++ version))
     (console w') /\
  exists ms,
    lookup (parent script_dir
              ++ ["PulsoidWidget-to-OSC-v" +++ version +++ ".zip"]) (fs w')
    = Some (File true (Zip ms)) /\
    In (["PulsoidWidget-to-OSC-v" +++ version; "package.json"], Some content)
       ms.
Proof.
  intros Hargv Hfile Hjson version Hplaced Hmain.
  assert (Hlt : Nat.ltb 1 (List.length argv) = false)
    by (apply Nat.ltb_ge; exact Hargv).
  assert (Hmv : main_version script_dir json_load py_str argv (World n con) =
                (Ok version,
                 World n (con ++ [Text ("[INFO] No version specified, using package.json: v"
                                          +++ version)]))).
  { unfold main_version. rewrite Hlt. unfold bind at 1.
    unfold get_version_from_package.
    change (joinpath script_dir "package.json")
      with (script_dir ++ ["package.json"]).
    cbn [fs]. rewrite Hfile. cbn [negb]. rewrite Hjson.
    destruct (assoc "version" items) as [x|]; reflexivity. }
  destruct (main_returns script_dir tmp_name json_load py_str argv _ _ _ Hmain)
    as (v1 & w1 & p & Hmv1 & Hrun).
  rewrite Hmv in Hmv1. injection Hmv1 as <- <-.
  destruct (build_release_returned script_dir tmp_name version n _ p w'
              Hplaced Hrun) as (Hready & -> & Hcon & Harch & _).
  split.
  - rewrite Hcon. apply in_or_app. left. apply in_or_app. right. now left.
  - exists (release_members script_dir version n). split.
    + change (lookup (parent script_dir ++ [zip_name version +++ ".zip"])
                (fs w') = Some (release_archive script_dir version n)).
      rewrite <- (zip_path_eq script_dir version
                    (ready_version _ _ _ _ Hready)).
      exact Harch.
    + apply (release_members_present script_dir version n "package.json" []
               (File true content)).
      * apply (ready_readable _ _ _ _ Hready).
      * simpl. tauto.
      * exact Hfile.
Qed.



(** X7.  With a directory where the archive goes no build returns: the
    run raises, and everything away from the temporary directory - the
    directory in the way included - is afterwards as it was. *)
Theorem X7_directory_at_archive_path_stops
        (v : string) (w w' : world) (r : result path) :
  kind (zip_path script_dir v) (fs w) = Some true ->
  diverge tmp_name (zip_path script_dir v) = true ->
  build_release script_dir tmp_name v w = (r, w') ->
  (exists e, r = Raise e) /\
  lookup (zip_path script_dir v) (fs w') =
    lookup (zip_path script_dir v) (fs w) /\
  forall q, diverge tmp_name q = true -> lookup q (fs w') = lookup q (fs w).
Proof.
  intros Hdir Hzp Hrun.
  destruct (build_release_blocked script_dir tmp_name v w w' r Hdir Hzp Hrun)
    as [He Hlk].
  split; [exact He|]. split; [now apply Hlk | exact Hlk].
Qed.





End More.

(* ================================================================== *)
(** * The further properties at work on the sample disks *)


Lemma X2_archive_holds_listed_items_only_witness :
  placed Sample.script_dir Sample.tmp_name "1.1.1" Sample.fresh_disk /\
  exists ms,
    lookup ["home"; "dev"; "PulsoidWidget-to-OSC-v1.1.1.zip"]
      (fs (snd (Sample.build_release "1.1.1" (Sample.boot Sample.fresh_disk))))
    = Some (File true (Zip ms))
    /\ (forall a x, In (a, x) ms ->
          a = [zip_name "1.1.1"] \/
          exists i m, In i INCLUDE /\
                      lookup (Sample.script_dir ++ [i]) Sample.fresh_disk
                      = Some m /\
                      is_prefix [zip_name "1.1.1"; i] a = true)
    /\ (forall c a x, ~ In c INCLUDE -> In (a, x) ms ->
          is_prefix [zip_name "1.1.1"; c] a = false).
Proof.
  assert (Hplaced : placed Sample.script_dir Sample.tmp_name "1.1.1"
                      Sample.fresh_disk) by (constructor; reflexivity).
  split; [exact Hplaced|].
  apply (X2_archive_holds_listed_items_only Sample.script_dir Sample.tmp_name
           "1.1.1" Sample.fresh_disk []
           ["home"; "dev"; "PulsoidWidget-to-OSC-v1.1.1.zip"]
           (snd (Sample.build_release "1.1.1" (Sample.boot Sample.fresh_disk)))
           Hplaced eq_refl).
Defined.


Lemma X4_main_builds_package_version_witness :
  List.length ["build.py"] <= 1 /\
  placed Sample.script_dir Sample.tmp_name "2.0.0" Sample.fresh_disk /\
  In (Text ("[INFO] No version specified, using package.json: v" +++ "2.0.0"))
     (console (snd (Sample.main ["build.py"] (Sample.boot Sample.fresh_disk))))
  /\
  exists ms,
    lookup (parent Sample.script_dir
              ++ ["PulsoidWidget-to-OSC-v" +++ "2.0.0" +++ ".zip"])
      (fs (snd (Sample.main ["build.py"] (Sample.boot Sample.fresh_disk))))
    = Some (File true (Zip ms)) /\
    In (["PulsoidWidget-to-OSC-v" +++ "2.0.0"; "package.json"],
        Some (Raw Sample.package_text)) ms.
Proof.
  assert (Hargv : List.length ["build.py"] <= 1) by (simpl; lia).
  assert (Hplaced : placed Sample.script_dir Sample.tmp_name "2.0.0"
                      Sample.fresh_disk) by (constructor; reflexivity).
  split; [exact Hargv|]. split; [exact Hplaced|].
  apply (X4_main_builds_package_version Sample.script_dir Sample.tmp_name
           Sample.json_load Sample.py_str ["build.py"] Sample.fresh_disk []
           (Raw Sample.package_text) [("version", PStr "2.0.0")]
           tt (snd (Sample.main ["build.py"] (Sample.boot Sample.fresh_disk)))
           Hargv eq_refl eq_refl Hplaced eq_refl).
Defined.



Lemma X7_directory_at_archive_path_stops_witness :
  kind (zip_path Sample.script_dir "1.1.1")
       (Sample.disk (Sample.project Sample.package_text true)
          [ ("PulsoidWidget-to-OSC-v1.1.1.zip", Dir []) ]) = Some true /\
  (exists e,
      fst (Sample.build_release "1.1.1"
             (Sample.boot (Sample.disk (Sample.project Sample.package_text true)
                             [ ("PulsoidWidget-to-OSC-v1.1.1.zip", Dir []) ])))
      = Raise e) /\
  lookup (zip_path Sample.script_dir "1.1.1")
    (fs (snd (Sample.build_release "1.1.1"
                (Sample.boot
                   (Sample.disk (Sample.project Sample.package_text true)
                      [ ("PulsoidWidget-to-OSC-v1.1.1.zip", Dir []) ])))))
  = Some (Dir []).
Proof.
  split; [reflexivity|].
  destruct (X7_directory_at_archive_path_stops Sample.script_dir
              Sample.tmp_name "1.1.1"
              (Sample.boot
                 (Sample.disk (Sample.project Sample.package_text true)
                    [ ("PulsoidWidget-to-OSC-v1.1.1.zip", Dir []) ]))
              (snd (Sample.build_release "1.1.1"
                      (Sample.boot
                         (Sample.disk (Sample.project Sample.package_text true)
                            [ ("PulsoidWidget-to-OSC-v1.1.1.zip", Dir []) ]))))
              (fst (Sample.build_release "1.1.1"
                      (Sample.boot
                         (Sample.disk (Sample.project Sample.package_text true)
                            [ ("PulsoidWidget-to-OSC-v1.1.1.zip", Dir []) ]))))
              eq_refl eq_refl eq_refl) as (He & Hkept & _).
  split; [exact He | exact Hkept].
Defined.




